(** * TinyHRM: the Human Resource Machine interpreter of [common/main.c]

    A shallow embedding of the interpreter and the properties of its
    validators, of its instruction step and of its fetch-execute loop.

    Target conventions.  The program is written for an AVR
    ([#include <avr/io.h>]), where [int] is 16 bits wide.  Hence
    - [int16_t] is [int] and [uint16_t] is [unsigned int]: comparing an
      [int16_t] with a [uint16_t] converts the signed operand to unsigned
      16 bits first;
    - [uint8_t] operands are promoted to [int] before arithmetic.
    Machine integers are carried as [Z] and every conversion and wrap-around
    is written out ([to_u8], [to_u16], [to_i16]).  A compound assignment to
    an [int16_t] stores the result modulo 2^16, as the target's two's
    complement arithmetic does; no statement below depends on it, their
    operands being small.

    Arrays are lists; an access outside an array has no defined behaviour in
    C and makes a step undefined ([None]). *)

From Stdlib Require Import ZArith Lia.
From stdpp Require Import base option list.

#[local] Open Scope Z_scope.

(** ** Machine integers *)

Definition to_u8 (z : Z) : Z := z mod 256.
Definition to_u16 (z : Z) : Z := z mod 65536.
Definition to_i16 (z : Z) : Z := (z + 32768) mod 65536 - 32768.

Definition int16_range (z : Z) : Prop := -32768 <= z <= 32767.
Definition uint8_range (z : Z) : Prop := 0 <= z <= 255.

(** ** Values, instructions and error codes *)

Inductive HRMValueType_t : Set :=
  | EMPTY
  | CHAR
  | NUM
  | MEM_ADDR
  | PROG_ADDR.

Definition NO_PARAM : HRMValueType_t := EMPTY.

#[global] Instance HRMValueType_eq_dec : EqDecision HRMValueType_t.
Proof. solve_decision. Defined.

(** [HRMVal_t] is a type tag and a union of [hrm_num n] (int16_t) and
    [hrm_char c] (uint8_t).  The interpreter only ever reads the [n] member;
    [val_c] is the view of the same storage through the [c] member on the
    little-endian target. *)
Record HRMVal_t : Set := mkVal {
  type : HRMValueType_t;
  val_n : Z
}.

Definition val_c (v : HRMVal_t) : Z := to_u8 (val_n v).

Definition set_type (t : HRMValueType_t) (v : HRMVal_t) : HRMVal_t :=
  {| type := t; val_n := val_n v |}.

Definition set_val_n (n : Z) (v : HRMVal_t) : HRMVal_t :=
  {| type := type v; val_n := n |}.

Definition NUM_FLOOR_VALUES : Z := 9.
Definition NUM_INBOX_VALUES : Z := 8.

Inductive HRMInstructionType_t : Set :=
  | INBOX
  | OUTBOX
  | COPYFROM
  | COPYFROM_IND
  | COPYTO
  | COPYTO_IND
  | ADD
  | ADD_IND
  | SUB
  | SUB_IND
  | BUMP_PLUS
  | BUMP_PLUS_IND
  | BUMP_MINUS
  | BUMP_MINUS_IND
  | JUMP
  | JUMP_ZERO
  | JUMP_NEGATIVE.

Record HRMInstruction_t : Set := mkInst {
  inst : HRMInstructionType_t;
  param : HRMVal_t
}.

Inductive HRMErr_t : Set :=
  | ERR_NONE
  | ERR_BAD_PARAM_TYPE
  | ERR_EMPTY_HANDS
  | ERR_INVALID_TYPE_FOR_DIRECT_ADDR
  | ERR_DIRECT_ADDR_OUT_OF_RANGE
  | ERR_INVALID_TYPE_FOR_INDIRECT_ADDR
  | ERR_INDIRECT_ADDR_OUT_OF_RANGE
  | ERR_COPYFROM_READING_EMPTY_ADDR
  | ERR_COPYFROM_IND_READING_EMPTY_ADDR
  | ERR_BAD_ADDEND_TYPE_IN_HANDS
  | ERR_BAD_SUBTRAHEND_TYPE_IN_HANDS
  | ERR_BAD_ADDEND_TYPE_IN_MEMORY
  | ERR_BAD_SUBTRAHEND_TYPE_IN_MEMORY
  | ERR_BAD_TYPE_FOR_BUMP_IN_MEMORY
  | ERR_OVERFLOW
  | ERR_UNDERFLOW.

#[global] Instance HRMErr_eq_dec : EqDecision HRMErr_t.
Proof. solve_decision. Defined.

(** The enumerators' integer values; the jump cases assign the literal [1]
    to [err], which is [ERR_BAD_PARAM_TYPE]. *)
Definition HRMErr_code (e : HRMErr_t) : Z :=
  match e with
  | ERR_NONE => 0
  | ERR_BAD_PARAM_TYPE => 1
  | ERR_EMPTY_HANDS => 2
  | ERR_INVALID_TYPE_FOR_DIRECT_ADDR => 3
  | ERR_DIRECT_ADDR_OUT_OF_RANGE => 4
  | ERR_INVALID_TYPE_FOR_INDIRECT_ADDR => 5
  | ERR_INDIRECT_ADDR_OUT_OF_RANGE => 6
  | ERR_COPYFROM_READING_EMPTY_ADDR => 7
  | ERR_COPYFROM_IND_READING_EMPTY_ADDR => 8
  | ERR_BAD_ADDEND_TYPE_IN_HANDS => 9
  | ERR_BAD_SUBTRAHEND_TYPE_IN_HANDS => 10
  | ERR_BAD_ADDEND_TYPE_IN_MEMORY => 11
  | ERR_BAD_SUBTRAHEND_TYPE_IN_MEMORY => 12
  | ERR_BAD_TYPE_FOR_BUMP_IN_MEMORY => 13
  | ERR_OVERFLOW => 14
  | ERR_UNDERFLOW => 15
  end.

Definition MAX_INSTRUCTIONS_ALLOWED : Z := 1000.

(** ** Arrays *)

(** [a[i]] as an rvalue: defined only inside the array. *)
Definition arr_get (a : list HRMVal_t) (i : Z) : option HRMVal_t :=
  if bool_decide (0 <= i) then a !! Z.to_nat i else None.

(** [a[i] = v]: defined only inside the array. *)
Definition arr_set (a : list HRMVal_t) (i : Z) (v : HRMVal_t)
  : option (list HRMVal_t) :=
  if bool_decide (0 <= i < Z.of_nat (length a))
  then Some (<[Z.to_nat i := v]> a)
  else None.

(** ** The validators *)

Definition verify_hands_not_empty (hands : HRMVal_t) : HRMErr_t :=
  if bool_decide (EMPTY = type hands) then ERR_EMPTY_HANDS else ERR_NONE.

Definition verify_hands_hold_number (hands : HRMVal_t) : HRMErr_t :=
  let ret_val := verify_hands_not_empty hands in
  if bool_decide (ERR_NONE = ret_val) && bool_decide (NUM <> type hands)
  then ERR_BAD_ADDEND_TYPE_IN_HANDS
  else ret_val.

(** [mem] is a parameter of the C function that it never uses. *)
Definition verify_direct_addr
  (direct_addr : HRMVal_t) (mem : list HRMVal_t) (mem_len : Z) : HRMErr_t :=
  if bool_decide (NUM <> type direct_addr) then
    ERR_INVALID_TYPE_FOR_DIRECT_ADDR
  else if bool_decide (to_u16 (val_n direct_addr) >= to_u16 mem_len) then
    ERR_DIRECT_ADDR_OUT_OF_RANGE
  else
    ERR_NONE.

(** The only array access is [mem[indirect_addr.val.n]] in the last branch. *)
Definition verify_indirect_addr
  (indirect_addr : HRMVal_t) (mem : list HRMVal_t) (mem_len : Z)
  : option HRMErr_t :=
  if bool_decide (NUM <> type indirect_addr) then
    Some ERR_INVALID_TYPE_FOR_INDIRECT_ADDR
  else if bool_decide (to_u16 (val_n indirect_addr) >= to_u16 mem_len) then
    Some ERR_INDIRECT_ADDR_OUT_OF_RANGE
  else
    cell ← arr_get mem (val_n indirect_addr);
    Some (verify_direct_addr cell mem mem_len).

(** ** The state of a run

    [hands], [in_fifo] and [out_fifo] are the file-scope objects; [mem] is
    the array [execute] receives by pointer and updates in place; the other
    fields are the locals of [execute] that live across loop iterations. *)
Record VM : Type := mkVM {
  hands : HRMVal_t;
  in_fifo : list HRMVal_t;
  out_fifo : list HRMVal_t;
  mem : list HRMVal_t;
  pgm_num_instructions_executed : Z;
  pgm_pc : Z;
  inbox_empty : Z;
  in_fifo_val_idx : Z;
  out_fifo_num_vals : Z;
  err : HRMErr_t
}.

Definition with_hands (v : HRMVal_t) (st : VM) : VM :=
  mkVM v (in_fifo st) (out_fifo st) (mem st)
       (pgm_num_instructions_executed st) (pgm_pc st) (inbox_empty st)
       (in_fifo_val_idx st) (out_fifo_num_vals st) (err st).

Definition with_out_fifo (a : list HRMVal_t) (st : VM) : VM :=
  mkVM (hands st) (in_fifo st) a (mem st)
       (pgm_num_instructions_executed st) (pgm_pc st) (inbox_empty st)
       (in_fifo_val_idx st) (out_fifo_num_vals st) (err st).

Definition with_mem (a : list HRMVal_t) (st : VM) : VM :=
  mkVM (hands st) (in_fifo st) (out_fifo st) a
       (pgm_num_instructions_executed st) (pgm_pc st) (inbox_empty st)
       (in_fifo_val_idx st) (out_fifo_num_vals st) (err st).

Definition with_executed (n : Z) (st : VM) : VM :=
  mkVM (hands st) (in_fifo st) (out_fifo st) (mem st)
       n (pgm_pc st) (inbox_empty st)
       (in_fifo_val_idx st) (out_fifo_num_vals st) (err st).

Definition with_pc (n : Z) (st : VM) : VM :=
  mkVM (hands st) (in_fifo st) (out_fifo st) (mem st)
       (pgm_num_instructions_executed st) n (inbox_empty st)
       (in_fifo_val_idx st) (out_fifo_num_vals st) (err st).

Definition with_inbox_empty (n : Z) (st : VM) : VM :=
  mkVM (hands st) (in_fifo st) (out_fifo st) (mem st)
       (pgm_num_instructions_executed st) (pgm_pc st) n
       (in_fifo_val_idx st) (out_fifo_num_vals st) (err st).

Definition with_in_idx (n : Z) (st : VM) : VM :=
  mkVM (hands st) (in_fifo st) (out_fifo st) (mem st)
       (pgm_num_instructions_executed st) (pgm_pc st) (inbox_empty st)
       n (out_fifo_num_vals st) (err st).

Definition with_out_num (n : Z) (st : VM) : VM :=
  mkVM (hands st) (in_fifo st) (out_fifo st) (mem st)
       (pgm_num_instructions_executed st) (pgm_pc st) (inbox_empty st)
       (in_fifo_val_idx st) n (err st).

Definition with_err (e : HRMErr_t) (st : VM) : VM :=
  mkVM (hands st) (in_fifo st) (out_fifo st) (mem st)
       (pgm_num_instructions_executed st) (pgm_pc st) (inbox_empty st)
       (in_fifo_val_idx st) (out_fifo_num_vals st) e.

(** [pgm_num_instructions_executed += 1] *)
Definition count_instruction (st : VM) : VM :=
  with_executed (to_u16 (pgm_num_instructions_executed st + 1)) st.

(** [pgm_pc += 1] *)
Definition next_pc (st : VM) : VM := with_pc (to_u16 (pgm_pc st + 1)) st.

(** [pgm_pc = pgm[pgm_pc].param.val.n - 1], the subtraction in [int] and the
    result converted to [uint16_t]. *)
Definition jump_target (p : HRMVal_t) : Z := to_u16 (val_n p - 1).

(** [mem[mem[p.val.n].val.n]] as an rvalue *)
Definition mem_ind_get (m : list HRMVal_t) (p : HRMVal_t) : option HRMVal_t :=
  cell ← arr_get m (val_n p);
  arr_get m (val_n cell).

(** [mem[mem[p.val.n].val.n] = v] *)
Definition mem_ind_set (m : list HRMVal_t) (p v : HRMVal_t)
  : option (list HRMVal_t) :=
  cell ← arr_get m (val_n p);
  arr_set m (val_n cell) v.

(** ** The cases of the [switch] in [execute] *)

Definition case_INBOX (st : VM) : option VM :=
  st' ←
    (if bool_decide (in_fifo_val_idx st >= NUM_INBOX_VALUES) then
       Some (with_inbox_empty 1 st)
     else
       v ← arr_get (in_fifo st) (in_fifo_val_idx st);
       Some (next_pc (with_in_idx (to_u8 (in_fifo_val_idx st + 1))
                                  (with_hands v st))));
  Some (count_instruction st').

Definition case_OUTBOX (st : VM) : option VM :=
  st' ←
    (if bool_decide (EMPTY = type (hands st)) then
       Some (with_err ERR_EMPTY_HANDS st)
     else
       o ← arr_set (out_fifo st) (out_fifo_num_vals st) (hands st);
       Some (next_pc (with_out_num (to_u8 (out_fifo_num_vals st + 1))
                                   (with_out_fifo o st))));
  Some (count_instruction st').

Definition case_COPYFROM (p : HRMVal_t) (mem_len : Z) (st : VM) : option VM :=
  let st := with_err (verify_direct_addr p (mem st) mem_len) st in
  if bool_decide (ERR_NONE = err st) then
    value ← arr_get (mem st) (val_n p);
    if bool_decide (EMPTY = type value) then
      Some (with_err ERR_COPYFROM_READING_EMPTY_ADDR st)
    else
      Some (with_hands value st)
  else Some st.

Definition case_COPYFROM_IND (p : HRMVal_t) (mem_len : Z) (st : VM)
  : option VM :=
  e ← verify_indirect_addr p (mem st) mem_len;
  let st := with_err e st in
  if bool_decide (ERR_NONE = err st) then
    value ← mem_ind_get (mem st) p;
    if bool_decide (EMPTY = type value) then
      Some (with_err ERR_COPYFROM_IND_READING_EMPTY_ADDR st)
    else
      Some (with_hands value st)
  else Some st.

Definition case_COPYTO (p : HRMVal_t) (mem_len : Z) (st : VM) : option VM :=
  let st := with_err (verify_direct_addr p (mem st) mem_len) st in
  if bool_decide (ERR_NONE = err st) then
    m ← arr_set (mem st) (val_n p) (hands st);
    Some (with_hands (set_type EMPTY (hands st)) (with_mem m st))
  else Some st.

Definition case_COPYTO_IND (p : HRMVal_t) (mem_len : Z) (st : VM)
  : option VM :=
  e ← verify_indirect_addr p (mem st) mem_len;
  let st := with_err e st in
  if bool_decide (ERR_NONE = err st) then
    m ← mem_ind_set (mem st) p (hands st);
    Some (with_hands (set_type EMPTY (hands st)) (with_mem m st))
  else Some st.

Definition case_ADD (p : HRMVal_t) (mem_len : Z) (st : VM) : option VM :=
  if bool_decide (ERR_NONE <> verify_hands_hold_number (hands st)) then
    Some (with_err ERR_BAD_ADDEND_TYPE_IN_HANDS st)
  else
    let st := with_err (verify_direct_addr p (mem st) mem_len) st in
    if bool_decide (ERR_NONE = err st) then
      value ← arr_get (mem st) (val_n p);
      if bool_decide (type value <> NUM) then
        Some (with_err ERR_BAD_ADDEND_TYPE_IN_MEMORY st)
      else
        let st :=
          with_hands
            (set_val_n (to_i16 (val_n (hands st) + val_n value)) (hands st))
            st in
        if bool_decide (val_n (hands st) < 999) then
          Some (with_err ERR_UNDERFLOW st)
        else if bool_decide (val_n (hands st) > 999) then
          Some (with_err ERR_OVERFLOW st)
        else Some st
    else Some st.

Definition case_ADD_IND (p : HRMVal_t) (mem_len : Z) (st : VM) : option VM :=
  if bool_decide (ERR_NONE <> verify_hands_hold_number (hands st)) then
    Some (with_err ERR_BAD_ADDEND_TYPE_IN_HANDS st)
  else
    e ← verify_indirect_addr p (mem st) mem_len;
    let st := with_err e st in
    if bool_decide (ERR_NONE = err st) then
      value ← mem_ind_get (mem st) p;
      if bool_decide (type value <> NUM) then
        Some (with_err ERR_BAD_ADDEND_TYPE_IN_MEMORY st)
      else
        let st :=
          with_hands
            (set_val_n (to_i16 (val_n (hands st) + val_n value)) (hands st))
            st in
        if bool_decide (val_n (hands st) < 999) then
          Some (with_err ERR_UNDERFLOW st)
        else if bool_decide (val_n (hands st) > 999) then
          Some (with_err ERR_OVERFLOW st)
        else Some st
    else Some st.

Definition case_SUB (p : HRMVal_t) (mem_len : Z) (st : VM) : option VM :=
  if bool_decide (ERR_NONE <> verify_hands_hold_number (hands st)) then
    Some (with_err ERR_BAD_SUBTRAHEND_TYPE_IN_HANDS st)
  else
    let st := with_err (verify_direct_addr p (mem st) mem_len) st in
    if bool_decide (ERR_NONE = err st) then
      value ← arr_get (mem st) (val_n p);
      if bool_decide (type value <> NUM) then
        Some (with_err ERR_BAD_SUBTRAHEND_TYPE_IN_MEMORY st)
      else
        let st :=
          with_hands
            (set_val_n (to_i16 (val_n (hands st) - val_n value)) (hands st))
            st in
        if bool_decide (val_n (hands st) < 999) then
          Some (with_err ERR_UNDERFLOW st)
        else if bool_decide (val_n (hands st) > 999) then
          Some (with_err ERR_OVERFLOW st)
        else Some st
    else Some st.

Definition case_SUB_IND (p : HRMVal_t) (mem_len : Z) (st : VM) : option VM :=
  if bool_decide (ERR_NONE <> verify_hands_hold_number (hands st)) then
    Some (with_err ERR_BAD_SUBTRAHEND_TYPE_IN_HANDS st)
  else
    e ← verify_indirect_addr p (mem st) mem_len;
    let st := with_err e st in
    if bool_decide (ERR_NONE = err st) then
      value ← mem_ind_get (mem st) p;
      if bool_decide (type value <> NUM) then
        Some (with_err ERR_BAD_SUBTRAHEND_TYPE_IN_MEMORY st)
      else
        let st :=
          with_hands
            (set_val_n (to_i16 (val_n (hands st) - val_n value)) (hands st))
            st in
        if bool_decide (val_n (hands st) < 999) then
          Some (with_err ERR_UNDERFLOW st)
        else if bool_decide (val_n (hands st) > 999) then
          Some (with_err ERR_OVERFLOW st)
        else Some st
    else Some st.

Definition case_BUMP_PLUS (p : HRMVal_t) (mem_len : Z) (st : VM) : option VM :=
  let st := with_err (verify_direct_addr p (mem st) mem_len) st in
  if bool_decide (ERR_NONE = err st) then
    value ← arr_get (mem st) (val_n p);
    if bool_decide (type value <> NUM) then
      Some (with_err ERR_BAD_TYPE_FOR_BUMP_IN_MEMORY st)
    else
      let value := set_val_n (to_i16 (val_n value + 1)) value in
      if bool_decide (val_n value > 999) then
        Some (with_err ERR_OVERFLOW st)
      else
        m ← arr_set (mem st) (val_n p) value;
        Some (with_hands value (with_mem m st))
  else Some st.

Definition case_BUMP_PLUS_IND (p : HRMVal_t) (mem_len : Z) (st : VM)
  : option VM :=
  e ← verify_indirect_addr p (mem st) mem_len;
  let st := with_err e st in
  if bool_decide (ERR_NONE = err st) then
    value ← mem_ind_get (mem st) p;
    if bool_decide (type value <> NUM) then
      Some (with_err ERR_BAD_TYPE_FOR_BUMP_IN_MEMORY st)
    else
      let value := set_val_n (to_i16 (val_n value + 1)) value in
      if bool_decide (val_n value > 999) then
        Some (with_err ERR_OVERFLOW st)
      else
        m ← mem_ind_set (mem st) p value;
        Some (with_hands value (with_mem m st))
  else Some st.

Definition case_BUMP_MINUS (p : HRMVal_t) (mem_len : Z) (st : VM)
  : option VM :=
  let st := with_err (verify_direct_addr p (mem st) mem_len) st in
  if bool_decide (ERR_NONE = err st) then
    value ← arr_get (mem st) (val_n p);
    if bool_decide (type value <> NUM) then
      Some (with_err ERR_BAD_TYPE_FOR_BUMP_IN_MEMORY st)
    else
      let value := set_val_n (to_i16 (val_n value - 1)) value in
      if bool_decide (val_n value < 999) then
        Some (with_err ERR_UNDERFLOW st)
      else
        m ← arr_set (mem st) (val_n p) value;
        Some (with_hands value (with_mem m st))
  else Some st.

Definition case_BUMP_MINUS_IND (p : HRMVal_t) (mem_len : Z) (st : VM)
  : option VM :=
  e ← verify_indirect_addr p (mem st) mem_len;
  let st := with_err e st in
  if bool_decide (ERR_NONE = err st) then
    value ← mem_ind_get (mem st) p;
    if bool_decide (type value <> NUM) then
      Some (with_err ERR_BAD_TYPE_FOR_BUMP_IN_MEMORY st)
    else
      let value := set_val_n (to_i16 (val_n value - 1)) value in
      if bool_decide (val_n value < 999) then
        Some (with_err ERR_UNDERFLOW st)
      else
        m ← mem_ind_set (mem st) p value;
        Some (with_hands value (with_mem m st))
  else Some st.

Definition case_JUMP (p : HRMVal_t) (st : VM) : option VM :=
  Some (count_instruction (with_pc (jump_target p) st)).

Definition case_JUMP_ZERO (p : HRMVal_t) (st : VM) : option VM :=
  let st' :=
    if bool_decide (NUM <> type (hands st)) then
      with_err ERR_BAD_PARAM_TYPE st
    else if bool_decide (0 = val_n (hands st)) then
      with_pc (jump_target p) st
    else
      next_pc st in
  Some (count_instruction st').

Definition case_JUMP_NEGATIVE (p : HRMVal_t) (st : VM) : option VM :=
  let st' :=
    if bool_decide (NUM <> type (hands st)) then
      with_err ERR_BAD_PARAM_TYPE st
    else if bool_decide (val_n (hands st) < 0) then
      with_pc (jump_target p) st
    else
      next_pc st in
  Some (count_instruction st').

(** ** The loop of [execute] *)

(** [pgm[pgm_pc]] *)
Definition fetch (pgm : list HRMInstruction_t) (st : VM)
  : option HRMInstruction_t :=
  if bool_decide (0 <= pgm_pc st) then pgm !! Z.to_nat (pgm_pc st) else None.

(** The body of the [while]: the [switch] on [pgm[pgm_pc].inst].  The
    [default] label is for tags outside the enumeration, which the
    enumeration type leaves out. *)
Definition loop_body
  (pgm : list HRMInstruction_t) (mem_len : Z) (st : VM) : option VM :=
  i ← fetch pgm st;
  match inst i with
  | INBOX => case_INBOX st
  | OUTBOX => case_OUTBOX st
  | COPYFROM => case_COPYFROM (param i) mem_len st
  | COPYFROM_IND => case_COPYFROM_IND (param i) mem_len st
  | COPYTO => case_COPYTO (param i) mem_len st
  | COPYTO_IND => case_COPYTO_IND (param i) mem_len st
  | ADD => case_ADD (param i) mem_len st
  | ADD_IND => case_ADD_IND (param i) mem_len st
  | SUB => case_SUB (param i) mem_len st
  | SUB_IND => case_SUB_IND (param i) mem_len st
  | BUMP_PLUS => case_BUMP_PLUS (param i) mem_len st
  | BUMP_PLUS_IND => case_BUMP_PLUS_IND (param i) mem_len st
  | BUMP_MINUS => case_BUMP_MINUS (param i) mem_len st
  | BUMP_MINUS_IND => case_BUMP_MINUS_IND (param i) mem_len st
  | JUMP => case_JUMP (param i) st
  | JUMP_ZERO => case_JUMP_ZERO (param i) st
  | JUMP_NEGATIVE => case_JUMP_NEGATIVE (param i) st
  end.

(** The condition of the [while].  [pgm_len - 1] is computed in [int] and
    converted to [unsigned] for the comparison with [pgm_pc]. *)
Definition loop_cond (pgm_len : Z) (st : VM) : bool :=
  bool_decide (0 = inbox_empty st)
  && bool_decide (ERR_NONE = err st)
  && bool_decide (pgm_pc st <= to_u16 (pgm_len - 1))
  && bool_decide (pgm_num_instructions_executed st <= MAX_INSTRUCTIONS_ALLOWED).

(** What a run comes to: [execute] returns (the state holds the value of
    [err] it returns), a step is undefined, or the iterations allotted to
    the model ran out with the loop still going. *)
Inductive Outcome : Type :=
  | Returned (st : VM)
  | Undefined
  | OutOfFuel.

Fixpoint execute_loop
  (fuel : nat) (pgm : list HRMInstruction_t) (pgm_len mem_len : Z) (st : VM)
  : Outcome :=
  if loop_cond pgm_len st then
    match fuel with
    | O => OutOfFuel
    | S fuel' =>
        match loop_body pgm mem_len st with
        | Some st' => execute_loop fuel' pgm pgm_len mem_len st'
        | None => Undefined
        end
    end
  else Returned st.

(** The state on entry to the loop: the locals as [execute] initialises
    them, around the objects it is called on. *)
Definition entry_state
  (hands0 : HRMVal_t) (in_fifo0 out_fifo0 mem0 : list HRMVal_t) : VM :=
  {| hands := hands0; in_fifo := in_fifo0; out_fifo := out_fifo0;
     mem := mem0;
     pgm_num_instructions_executed := 0; pgm_pc := 0; inbox_empty := 0;
     in_fifo_val_idx := 0; out_fifo_num_vals := 0; err := ERR_NONE |}.

Definition execute
  (fuel : nat) (pgm : list HRMInstruction_t) (pgm_len : Z)
  (mem0 : list HRMVal_t) (mem_len : Z)
  (hands0 : HRMVal_t) (in_fifo0 out_fifo0 : list HRMVal_t) : Outcome :=
  execute_loop fuel pgm pgm_len mem_len
               (entry_state hands0 in_fifo0 out_fifo0 mem0).

(** The value [execute] returns, when it returns. *)
Definition returned_err (o : Outcome) : option HRMErr_t :=
  match o with
  | Returned st => Some (err st)
  | _ => None
  end.

(** ** The objects [main] runs [execute] on *)

Definition Num (n : Z) : HRMVal_t := {| type := NUM; val_n := n |}.
Definition zero_val : HRMVal_t := {| type := EMPTY; val_n := 0 |}.

Definition hands_init : HRMVal_t := zero_val.

Definition in_fifo_init : list HRMVal_t :=
  [Num 7; Num 0; Num 5; Num 68; Num 0; Num 0; Num 0; Num 0].

Definition out_fifo_init : list HRMVal_t :=
  replicate (Z.to_nat NUM_INBOX_VALUES) zero_val.

Definition ROOM_MEMORY_SIZE_ZERO_PRESERVATION_INITIATIVE : Z := 9.

Definition mem_zero_preservation_initiative : list HRMVal_t :=
  replicate (Z.to_nat ROOM_MEMORY_SIZE_ZERO_PRESERVATION_INITIATIVE) zero_val.

Definition pgm_zero_preservation_initiative : list HRMInstruction_t :=
  [ {| inst := INBOX; param := zero_val |};
    {| inst := JUMP_ZERO; param := {| type := PROG_ADDR; val_n := 4 |} |};
    {| inst := JUMP; param := {| type := PROG_ADDR; val_n := 1 |} |};
    {| inst := OUTBOX; param := zero_val |};
    {| inst := JUMP; param := {| type := PROG_ADDR; val_n := 1 |} |} ].

Definition main_run (fuel : nat) : Outcome :=
  execute fuel pgm_zero_preservation_initiative 5
          mem_zero_preservation_initiative
          ROOM_MEMORY_SIZE_ZERO_PRESERVATION_INITIATIVE
          hands_init in_fifo_init out_fifo_init.

(** ** Well-formed inputs and the opcode classes of the statements *)

(** A bank as [execute] is handed it: [mem_len] cells, each holding an
    [int16_t]. *)
Definition bank_ok (m : list HRMVal_t) (L : Z) : Prop :=
  Z.of_nat (length m) = L /\ Forall (fun c => int16_range (val_n c)) m.

(** The input array has its [NUM_INBOX_VALUES] elements and the cursor has
    not gone below it. *)
Definition inbox_ok (st : VM) : Prop :=
  Z.of_nat (length (in_fifo st)) = NUM_INBOX_VALUES /\ 0 <= in_fifo_val_idx st.

(** INBOX, COPYFROM, ADD, SUB and the indirect forms. *)
Definition loads_hands (op : HRMInstructionType_t) : bool :=
  match op with
  | INBOX | COPYFROM | COPYFROM_IND | ADD | ADD_IND | SUB | SUB_IND => true
  | _ => false
  end.

(** The opcodes that take a memory address. *)
Definition addressed (op : HRMInstructionType_t) : bool :=
  match op with
  | COPYFROM | COPYFROM_IND | COPYTO | COPYTO_IND
  | ADD | ADD_IND | SUB | SUB_IND
  | BUMP_PLUS | BUMP_PLUS_IND | BUMP_MINUS | BUMP_MINUS_IND => true
  | _ => false
  end.

(** The condition a conditional jump tests on the number in the hands. *)
Definition jump_taken (op : HRMInstructionType_t) (h : HRMVal_t) : bool :=
  match op with
  | JUMP_ZERO => bool_decide (val_n h = 0)
  | _ => bool_decide (val_n h < 0)
  end.

(** ** Small programs and rooms used as test inputs *)

Definition instr (op : HRMInstructionType_t) (p : HRMVal_t)
  : HRMInstruction_t := {| inst := op; param := p |}.

Definition room1 (v : HRMVal_t) : list HRMVal_t := [v].

Definition in_fifo_of (v : HRMVal_t) : list HRMVal_t :=
  v :: replicate 7 (Num 0).

Definition prog_addr (n : Z) : HRMVal_t := {| type := PROG_ADDR; val_n := n |}.

Definition pgm_inbox_add : list HRMInstruction_t :=
  [instr INBOX zero_val; instr ADD (Num 0)].

Definition pgm_copyfrom : list HRMInstruction_t := [instr COPYFROM (Num 0)].

Definition pgm_copyto : list HRMInstruction_t := [instr COPYTO (Num 0)].

Definition pgm_bump_minus : list HRMInstruction_t :=
  [instr BUMP_MINUS (Num 0)].

Definition pgm_jump_self : list HRMInstruction_t :=
  [instr JUMP (prog_addr 1)].

(** A run as [main] starts it (empty hands, cleared output array), on a
    program, a one-cell room and an input array. *)
Definition run_room1
  (fuel : nat) (pgm : list HRMInstruction_t) (cell : HRMVal_t)
  (input : list HRMVal_t) : Outcome :=
  execute fuel pgm (Z.of_nat (length pgm)) (room1 cell) 1
          hands_init input out_fifo_init.

(** The state in which such a run enters the loop. *)
Definition entry_room1 (cell : HRMVal_t) (input : list HRMVal_t) : VM :=
  entry_state hands_init input out_fifo_init (room1 cell).

(** ** Vocabulary of the statements about single cases *)

(** The [_IND] opcodes. *)
Definition indirect (op : HRMInstructionType_t) : bool :=
  match op with
  | COPYFROM_IND | COPYTO_IND | ADD_IND | SUB_IND
  | BUMP_PLUS_IND | BUMP_MINUS_IND => true
  | _ => false
  end.

(** ADD, SUB and their indirect forms. *)
Definition arith (op : HRMInstructionType_t) : bool :=
  match op with
  | ADD | ADD_IND | SUB | SUB_IND => true
  | _ => false
  end.

(** The validator an addressed case calls on its parameter. *)
Definition verify_addr
  (op : HRMInstructionType_t) (p : HRMVal_t) (m : list HRMVal_t) (L : Z)
  : option HRMErr_t :=
  if indirect op then verify_indirect_addr p m L
  else Some (verify_direct_addr p m L).

(** The index of the cell an addressed case works on: [p.val.n], or
    [mem[p.val.n].val.n] for the indirect opcodes. *)
Definition effective_addr
  (op : HRMInstructionType_t) (m : list HRMVal_t) (p : HRMVal_t) : option Z :=
  if indirect op then cell ← arr_get m (val_n p); Some (val_n cell)
  else Some (val_n p).

(** The error codes the ADD and SUB cases assign for a bad operand. *)
Definition bad_hands_code (op : HRMInstructionType_t) : HRMErr_t :=
  match op with
  | SUB | SUB_IND => ERR_BAD_SUBTRAHEND_TYPE_IN_HANDS
  | _ => ERR_BAD_ADDEND_TYPE_IN_HANDS
  end.

Definition bad_cell_code (op : HRMInstructionType_t) : HRMErr_t :=
  match op with
  | ADD | ADD_IND => ERR_BAD_ADDEND_TYPE_IN_MEMORY
  | SUB | SUB_IND => ERR_BAD_SUBTRAHEND_TYPE_IN_MEMORY
  | _ => ERR_BAD_TYPE_FOR_BUMP_IN_MEMORY
  end.

Definition empty_cell_code (op : HRMInstructionType_t) : HRMErr_t :=
  match op with
  | COPYFROM_IND => ERR_COPYFROM_IND_READING_EMPTY_ADDR
  | _ => ERR_COPYFROM_READING_EMPTY_ADDR
  end.

(** The errors that can come out of the case of an opcode. *)
Definition may_raise (op : HRMInstructionType_t) : list HRMErr_t :=
  let direct := [ERR_INVALID_TYPE_FOR_DIRECT_ADDR;
                 ERR_DIRECT_ADDR_OUT_OF_RANGE] in
  let addr :=
    if indirect op
    then ERR_INVALID_TYPE_FOR_INDIRECT_ADDR
         :: ERR_INDIRECT_ADDR_OUT_OF_RANGE :: direct
    else direct in
  match op with
  | INBOX | JUMP => []
  | OUTBOX => [ERR_EMPTY_HANDS]
  | COPYFROM | COPYFROM_IND => empty_cell_code op :: addr
  | COPYTO | COPYTO_IND => addr
  | ADD | ADD_IND | SUB | SUB_IND =>
      bad_hands_code op :: bad_cell_code op
      :: ERR_OVERFLOW :: ERR_UNDERFLOW :: addr
  | BUMP_PLUS | BUMP_PLUS_IND => bad_cell_code op :: ERR_OVERFLOW :: addr
  | BUMP_MINUS | BUMP_MINUS_IND => bad_cell_code op :: ERR_UNDERFLOW :: addr
  | JUMP_ZERO | JUMP_NEGATIVE => [ERR_BAD_PARAM_TYPE]
  end.

(** ** Well-formed machine states *)

Definition val_ok (v : HRMVal_t) : Prop := int16_range (val_n v).

(** Every [int16_t] in the state is one, the arrays have their lengths and
    the two cursors are inside theirs. *)
Definition vm_ok (mem_len : Z) (st : VM) : Prop :=
  bank_ok (mem st) mem_len /\
  inbox_ok st /\
  Forall val_ok (in_fifo st) /\
  val_ok (hands st) /\
  0 <= out_fifo_num_vals st <= Z.of_nat (length (out_fifo st)) /\
  Z.of_nat (length (out_fifo st)) <= 255.

Definition pgm_ok (pgm : list HRMInstruction_t) : Prop :=
  Forall (fun i => val_ok (param i)) pgm.

(** What a later state of a run keeps of an earlier one: the input array,
    the lengths of the bank and of the output array, cursors that have not
    moved back, and the output elements below the earlier count. *)
Definition extends (st st' : VM) : Prop :=
  in_fifo st' = in_fifo st /\
  length (mem st') = length (mem st) /\
  length (out_fifo st') = length (out_fifo st) /\
  in_fifo_val_idx st <= in_fifo_val_idx st' /\
  out_fifo_num_vals st <= out_fifo_num_vals st' /\
  (forall b, 0 <= b < out_fifo_num_vals st ->
     arr_get (out_fifo st') b = arr_get (out_fifo st) b).

(** Programs made of INBOX, OUTBOX and the jumps only. *)
Definition unaddressed_pgm (pgm : list HRMInstruction_t) : Prop :=
  Forall (fun i => addressed (inst i) = false) pgm.

Definition pgm_bump_plus : list HRMInstruction_t :=
  [instr BUMP_PLUS (Num 0)].

Definition pgm_copyfrom_far : list HRMInstruction_t :=
  [instr COPYFROM (Num 5)].

Definition pgm_jump_out : list HRMInstruction_t :=
  [instr JUMP (prog_addr 0)].

(** The state in which [main] enters the loop. *)
Definition main_entry : VM :=
  entry_state hands_init in_fifo_init out_fifo_init
              mem_zero_preservation_initiative.

(** The number ADD and SUB compute from the hands and the cell. *)
Definition arith_result (op : HRMInstructionType_t) (h c : Z) : Z :=
  match op with
  | SUB | SUB_IND => h - c
  | _ => h + c
  end.

(** The opcodes whose case assigns to the bank. *)
Definition stores (op : HRMInstructionType_t) : bool :=
  match op with
  | COPYTO | COPYTO_IND
  | BUMP_PLUS | BUMP_PLUS_IND | BUMP_MINUS | BUMP_MINUS_IND => true
  | _ => false
  end.

(** A program that reads, loops back to the INBOX on a zero and otherwise
    jumps to itself for ever; and an input of zeros. *)
Definition pgm_echo_or_spin : list HRMInstruction_t :=
  [instr INBOX zero_val; instr JUMP_ZERO (prog_addr 1);
   instr JUMP (prog_addr 3)].

Definition in_fifo_zeros : list HRMVal_t :=
  replicate (Z.to_nat NUM_INBOX_VALUES) (Num 0).

(** * Properties *)

(** Reduction of the field projections of an updated state. *)
Ltac proj_simpl :=
  cbn [hands in_fifo out_fifo mem pgm_num_instructions_executed pgm_pc
       inbox_empty in_fifo_val_idx out_fifo_num_vals err
       with_hands with_out_fifo with_mem with_executed with_pc
       with_inbox_empty with_in_idx with_out_num with_err
       count_instruction next_pc] in *.

Ltac unfold_cases H :=
  unfold case_INBOX, case_OUTBOX,
         case_COPYFROM, case_COPYFROM_IND, case_COPYTO, case_COPYTO_IND,
         case_ADD, case_ADD_IND, case_SUB, case_SUB_IND,
         case_BUMP_PLUS, case_BUMP_PLUS_IND,
         case_BUMP_MINUS, case_BUMP_MINUS_IND,
         case_JUMP, case_JUMP_ZERO, case_JUMP_NEGATIVE in H.

(** Case analysis on the tests of a case of the [switch]. *)
Ltac step_cases :=
  repeat (case_bool_decide || simplify_option_eq); simpl in *.

(** ** Machine integers *)

Lemma to_u16_id (z : Z) : 0 <= z < 65536 -> to_u16 z = z.
Proof. intros H. unfold to_u16. apply Z.mod_small. exact H. Qed.

Lemma to_u16_neg (z : Z) : -65536 <= z < 0 -> to_u16 z = z + 65536.
Proof.
  intros H. unfold to_u16.
  rewrite <- (Z.mod_add z 1 65536) by lia.
  apply Z.mod_small. lia.
Qed.

Lemma to_i16_id (z : Z) : int16_range z -> to_i16 z = z.
Proof.
  unfold int16_range, to_i16. intros H.
  rewrite Z.mod_small by lia. lia.
Qed.

(** ** Arrays *)

Lemma arr_get_in_range (a : list HRMVal_t) (i : Z) :
  0 <= i < Z.of_nat (length a) -> is_Some (arr_get a i).
Proof.
  intros H. unfold arr_get. rewrite bool_decide_eq_true_2 by lia.
  apply lookup_lt_is_Some. lia.
Qed.

Lemma arr_get_out_of_range (a : list HRMVal_t) (i : Z) :
  ~ (0 <= i < Z.of_nat (length a)) -> arr_get a i = None.
Proof.
  intros H. unfold arr_get. case_bool_decide; [|reflexivity].
  apply lookup_ge_None. lia.
Qed.

Lemma arr_get_Some_range (a : list HRMVal_t) (i : Z) (v : HRMVal_t) :
  arr_get a i = Some v -> 0 <= i < Z.of_nat (length a).
Proof.
  unfold arr_get. case_bool_decide; [|discriminate].
  intros H'. apply lookup_lt_Some in H'. lia.
Qed.

(** ** The direct-address validator *)

Lemma verify_direct_addr_cases (p : HRMVal_t) (m : list HRMVal_t) (L : Z) :
  int16_range (val_n p) -> uint8_range L ->
  verify_direct_addr p m L =
    if bool_decide (type p = NUM) then
      if bool_decide (0 <= val_n p < L) then ERR_NONE
      else ERR_DIRECT_ADDR_OUT_OF_RANGE
    else ERR_INVALID_TYPE_FOR_DIRECT_ADDR.
Proof.
  unfold int16_range, uint8_range, verify_direct_addr. intros Hn HL.
  rewrite (to_u16_id L) by lia.
  destruct (decide (type p = NUM)) as [Ht|Ht].
  - rewrite (bool_decide_eq_false_2 (NUM <> type p)) by congruence.
    rewrite (bool_decide_eq_true_2 (type p = NUM)) by exact Ht.
    destruct (Z_lt_dec (val_n p) 0) as [Hneg|Hpos].
    + rewrite to_u16_neg by lia.
      rewrite bool_decide_eq_true_2 by lia.
      rewrite bool_decide_eq_false_2 by lia. reflexivity.
    + rewrite to_u16_id by lia.
      repeat case_bool_decide; first [reflexivity | lia].
  - rewrite (bool_decide_eq_true_2 (NUM <> type p)) by congruence.
    rewrite (bool_decide_eq_false_2 (type p = NUM)) by exact Ht.
    reflexivity.
Qed.

(** C6.  For a bank of length [L] and a parameter [p], direct validation
    succeeds exactly when [p] is number-typed and [0 <= val_n p < L]; a
    parameter that is not number-typed gets the invalid-direct-address-type
    code, and a number at or above [L], or negative (it converts to a large
    unsigned value), gets the direct-address-out-of-range code. *)
Theorem verify_direct_addr_spec (p : HRMVal_t) (m : list HRMVal_t) (L : Z) :
  int16_range (val_n p) -> uint8_range L ->
  (verify_direct_addr p m L = ERR_NONE <-> type p = NUM /\ 0 <= val_n p < L)
  /\ (type p <> NUM ->
      verify_direct_addr p m L = ERR_INVALID_TYPE_FOR_DIRECT_ADDR)
  /\ (type p = NUM -> val_n p >= L \/ val_n p < 0 ->
      verify_direct_addr p m L = ERR_DIRECT_ADDR_OUT_OF_RANGE).
Proof.
  intros Hn HL. rewrite (verify_direct_addr_cases p m L Hn HL).
  repeat split.
  - repeat case_bool_decide; first [assumption | discriminate].
  - repeat case_bool_decide; first [lia | discriminate].
  - repeat case_bool_decide; first [lia | discriminate].
  - intros [Ht Hr]. rewrite !bool_decide_eq_true_2 by assumption. reflexivity.
  - intros Ht. rewrite bool_decide_eq_false_2 by assumption. reflexivity.
  - intros Ht Hr. rewrite bool_decide_eq_true_2 by assumption.
    rewrite bool_decide_eq_false_2 by lia. reflexivity.
Qed.

Lemma verify_direct_addr_spec_witness :
  int16_range (val_n (Num 3)) /\ uint8_range 9 /\
  verify_direct_addr (Num 3) mem_zero_preservation_initiative 9 = ERR_NONE /\
  verify_direct_addr (Num (-1)) mem_zero_preservation_initiative 9
    = ERR_DIRECT_ADDR_OUT_OF_RANGE.
Proof.
  assert (H3 : int16_range (val_n (Num 3))) by (unfold int16_range; simpl; lia).
  assert (Hm : int16_range (val_n (Num (-1))))
    by (unfold int16_range; simpl; lia).
  assert (H9 : uint8_range 9) by (unfold uint8_range; lia).
  split; [exact H3|]. split; [exact H9|]. split.
  - apply (verify_direct_addr_spec (Num 3) mem_zero_preservation_initiative 9
             H3 H9).
    simpl. split; [reflexivity | lia].
  - apply (verify_direct_addr_spec (Num (-1)) mem_zero_preservation_initiative
             9 Hm H9).
    + reflexivity.
    + right. simpl. lia.
Defined.

(** ** The indirect-address validator *)

Lemma verify_indirect_addr_outer (p : HRMVal_t) (m : list HRMVal_t) (L : Z) :
  int16_range (val_n p) -> uint8_range L ->
  verify_indirect_addr p m L =
    if bool_decide (type p = NUM) then
      if bool_decide (0 <= val_n p < L) then
        cell ← arr_get m (val_n p); Some (verify_direct_addr cell m L)
      else Some ERR_INDIRECT_ADDR_OUT_OF_RANGE
    else Some ERR_INVALID_TYPE_FOR_INDIRECT_ADDR.
Proof.
  unfold int16_range, uint8_range, verify_indirect_addr. intros Hn HL.
  rewrite (to_u16_id L) by lia.
  destruct (decide (type p = NUM)) as [Ht|Ht].
  - rewrite (bool_decide_eq_false_2 (NUM <> type p)) by congruence.
    rewrite (bool_decide_eq_true_2 (type p = NUM)) by exact Ht.
    destruct (Z_lt_dec (val_n p) 0) as [Hneg|Hpos].
    + rewrite to_u16_neg by lia.
      rewrite bool_decide_eq_true_2 by lia.
      rewrite bool_decide_eq_false_2 by lia. reflexivity.
    + rewrite to_u16_id by lia.
      repeat case_bool_decide; first [reflexivity | lia].
  - rewrite (bool_decide_eq_true_2 (NUM <> type p)) by congruence.
    rewrite (bool_decide_eq_false_2 (type p = NUM)) by exact Ht.
    reflexivity.
Qed.

Lemma bank_ok_cell (m : list HRMVal_t) (L i : Z) (c : HRMVal_t) :
  bank_ok m L -> arr_get m i = Some c -> int16_range (val_n c).
Proof.
  intros [_ Hall] Hget. unfold arr_get in Hget.
  case_bool_decide; [|discriminate].
  exact (Forall_lookup_1 _ _ _ _ Hall Hget).
Qed.

(** C5.  Indirect validation is in two stages.  A parameter that is not
    number-typed gets the indirect-type code, and an outer value outside the
    bank gets the indirect-range code; both answers are given for every
    content of the bank, and in the second case the referenced cell does not
    exist in the bank, so it was not read (reading it would leave the result
    undefined).  Only for an outer value inside the bank is the cell read, and
    the answer is then the direct validation of that cell's value, with the
    direct validator's two codes. *)
Theorem verify_indirect_addr_two_stage
  (p : HRMVal_t) (m : list HRMVal_t) (L : Z) :
  int16_range (val_n p) -> uint8_range L -> bank_ok m L ->
  (type p <> NUM ->
     forall m', verify_indirect_addr p m' L
                = Some ERR_INVALID_TYPE_FOR_INDIRECT_ADDR)
  /\ (type p = NUM -> ~ (0 <= val_n p < L) ->
      arr_get m (val_n p) = None /\
      forall m', verify_indirect_addr p m' L
                 = Some ERR_INDIRECT_ADDR_OUT_OF_RANGE)
  /\ (type p = NUM -> 0 <= val_n p < L ->
      exists cell,
        arr_get m (val_n p) = Some cell /\
        verify_indirect_addr p m L = Some (verify_direct_addr cell m L) /\
        (type cell <> NUM ->
           verify_indirect_addr p m L
           = Some ERR_INVALID_TYPE_FOR_DIRECT_ADDR) /\
        (type cell = NUM -> ~ (0 <= val_n cell < L) ->
           verify_indirect_addr p m L = Some ERR_DIRECT_ADDR_OUT_OF_RANGE) /\
        (type cell = NUM -> 0 <= val_n cell < L ->
           verify_indirect_addr p m L = Some ERR_NONE)).
Proof.
  intros Hn HL Hbank. split; [|split].
  - intros Ht m'. rewrite (verify_indirect_addr_outer p m' L Hn HL).
    rewrite bool_decide_eq_false_2 by exact Ht. reflexivity.
  - intros Ht Hout. split.
    + apply arr_get_out_of_range. destruct Hbank as [Hlen _]. lia.
    + intros m'. rewrite (verify_indirect_addr_outer p m' L Hn HL).
      rewrite bool_decide_eq_true_2 by exact Ht.
      rewrite bool_decide_eq_false_2 by exact Hout. reflexivity.
  - intros Ht Hin.
    destruct (arr_get_in_range m (val_n p)) as [cell Hcell].
    { destruct Hbank as [Hlen _]. lia. }
    exists cell. split; [exact Hcell|].
    assert (Hres : verify_indirect_addr p m L
                   = Some (verify_direct_addr cell m L)).
    { rewrite (verify_indirect_addr_outer p m L Hn HL).
      rewrite bool_decide_eq_true_2 by exact Ht.
      rewrite bool_decide_eq_true_2 by exact Hin.
      rewrite Hcell. reflexivity. }
    split; [exact Hres|]. rewrite Hres.
    rewrite (verify_direct_addr_cases cell m L
               (bank_ok_cell m L _ cell Hbank Hcell) HL).
    repeat split.
    + intros Hc. rewrite bool_decide_eq_false_2 by exact Hc. reflexivity.
    + intros Hc Hr. rewrite bool_decide_eq_true_2 by exact Hc.
      rewrite bool_decide_eq_false_2 by exact Hr. reflexivity.
    + intros Hc Hr. rewrite !bool_decide_eq_true_2 by assumption.
      reflexivity.
Qed.

Lemma verify_indirect_addr_two_stage_witness :
  bank_ok [Num 1; Num 7] 2 /\
  verify_indirect_addr (Num 0) [Num 1; Num 7] 2 = Some ERR_NONE /\
  verify_indirect_addr (Num 1) [Num 1; Num 7] 2
    = Some ERR_DIRECT_ADDR_OUT_OF_RANGE /\
  verify_indirect_addr (Num 2) [] 2 = Some ERR_INDIRECT_ADDR_OUT_OF_RANGE.
Proof.
  assert (Hb : bank_ok [Num 1; Num 7] 2).
  { split; [reflexivity|].
    repeat constructor; unfold int16_range; simpl; lia. }
  assert (H2 : uint8_range 2) by (unfold uint8_range; lia).
  assert (Hr : forall n, -32768 <= n <= 32767 -> int16_range (val_n (Num n)))
    by (intros n Hn; exact Hn).
  split; [exact Hb|]. split; [|split].
  - destruct (verify_indirect_addr_two_stage (Num 0) [Num 1; Num 7] 2
                (Hr 0 ltac:(lia)) H2 Hb) as (_ & _ & Hin).
    destruct (Hin eq_refl ltac:(simpl; lia))
      as (cell & Hcell & _ & _ & _ & Hok).
    injection Hcell as <-. apply Hok; [reflexivity | simpl; lia].
  - destruct (verify_indirect_addr_two_stage (Num 1) [Num 1; Num 7] 2
                (Hr 1 ltac:(lia)) H2 Hb) as (_ & _ & Hin).
    destruct (Hin eq_refl ltac:(simpl; lia))
      as (cell & Hcell & _ & _ & Hbad & _).
    injection Hcell as <-. apply Hbad; [reflexivity | simpl; lia].
  - destruct (verify_indirect_addr_two_stage (Num 2) [Num 1; Num 7] 2
                (Hr 2 ltac:(lia)) H2 Hb) as (_ & Hout & _).
    apply Hout; [reflexivity | simpl; lia].
Defined.

(** ** The loop *)

Section Loop.

Variable pgm : list HRMInstruction_t.
Variables pgm_len mem_len : Z.

Lemma execute_loop_stop (fuel : nat) (st : VM) :
  loop_cond pgm_len st = false ->
  execute_loop fuel pgm pgm_len mem_len st = Returned st.
Proof. intros H. destruct fuel; simpl; rewrite H; reflexivity. Qed.

Lemma execute_loop_step (fuel : nat) (st st' : VM) :
  loop_cond pgm_len st = true ->
  loop_body pgm mem_len st = Some st' ->
  execute_loop (S fuel) pgm pgm_len mem_len st
  = execute_loop fuel pgm pgm_len mem_len st'.
Proof. intros Hc Hb. simpl. rewrite Hc, Hb. reflexivity. Qed.

Lemma loop_cond_true (st : VM) :
  loop_cond pgm_len st = true ->
  inbox_empty st = 0 /\ err st = ERR_NONE /\
  pgm_pc st <= to_u16 (pgm_len - 1) /\
  pgm_num_instructions_executed st <= MAX_INSTRUCTIONS_ALLOWED.
Proof.
  unfold loop_cond. rewrite !andb_true_iff, !bool_decide_eq_true.
  intros [[[H1 H2] H3] H4]. auto.
Qed.

Lemma loop_cond_error (st : VM) :
  err st <> ERR_NONE -> loop_cond pgm_len st = false.
Proof.
  intros H. unfold loop_cond.
  rewrite (bool_decide_eq_false_2 (ERR_NONE = err st)) by congruence.
  rewrite andb_false_r. reflexivity.
Qed.

Lemma loop_cond_inbox_empty (st : VM) :
  inbox_empty st = 1 -> loop_cond pgm_len st = false.
Proof.
  intros H. unfold loop_cond.
  rewrite (bool_decide_eq_false_2 (0 = inbox_empty st)) by lia.
  reflexivity.
Qed.

(** An iteration that raises an error is the last one: [execute] returns
    the state it leaves. *)
Lemma execute_loop_error (fuel : nat) (st st' : VM) :
  loop_cond pgm_len st = true ->
  loop_body pgm mem_len st = Some st' ->
  err st' <> ERR_NONE ->
  execute_loop (S fuel) pgm pgm_len mem_len st = Returned st'.
Proof.
  intros Hc Hb He. rewrite (execute_loop_step fuel st st' Hc Hb).
  apply execute_loop_stop, loop_cond_error, He.
Qed.

Lemma fetch_Some (st : VM) (i : HRMInstruction_t) :
  fetch pgm st = Some i -> 0 <= pgm_pc st < Z.of_nat (length pgm).
Proof.
  unfold fetch. case_bool_decide; [|discriminate].
  intros H'. apply lookup_lt_Some in H'. lia.
Qed.

Lemma loop_body_fetch (st : VM) (i : HRMInstruction_t) :
  fetch pgm st = Some i ->
  loop_body pgm mem_len st =
    match inst i with
    | INBOX => case_INBOX st
    | OUTBOX => case_OUTBOX st
    | COPYFROM => case_COPYFROM (param i) mem_len st
    | COPYFROM_IND => case_COPYFROM_IND (param i) mem_len st
    | COPYTO => case_COPYTO (param i) mem_len st
    | COPYTO_IND => case_COPYTO_IND (param i) mem_len st
    | ADD => case_ADD (param i) mem_len st
    | ADD_IND => case_ADD_IND (param i) mem_len st
    | SUB => case_SUB (param i) mem_len st
    | SUB_IND => case_SUB_IND (param i) mem_len st
    | BUMP_PLUS => case_BUMP_PLUS (param i) mem_len st
    | BUMP_PLUS_IND => case_BUMP_PLUS_IND (param i) mem_len st
    | BUMP_MINUS => case_BUMP_MINUS (param i) mem_len st
    | BUMP_MINUS_IND => case_BUMP_MINUS_IND (param i) mem_len st
    | JUMP => case_JUMP (param i) st
    | JUMP_ZERO => case_JUMP_ZERO (param i) st
    | JUMP_NEGATIVE => case_JUMP_NEGATIVE (param i) st
    end.
Proof. intros H. unfold loop_body. rewrite H. reflexivity. Qed.

(** When the loop is running and the instruction at the program counter is
    INBOX with the input cursor at or past the end of the input, [execute]
    returns after this iteration, whatever iterations the model is allotted:
    the returned error is [ERR_NONE], whose code 0 is the code of no
    enumerator but [ERR_NONE], and the output array, its count, the hands
    and the bank are as they were before the iteration. *)
Lemma inbox_exhausted_step_returns
  (st : VM) (i : HRMInstruction_t) (fuel : nat) :
  loop_cond pgm_len st = true ->
  fetch pgm st = Some i -> inst i = INBOX ->
  in_fifo_val_idx st >= NUM_INBOX_VALUES ->
  exists st',
    execute_loop (S fuel) pgm pgm_len mem_len st = Returned st' /\
    returned_err (Returned st') = Some ERR_NONE /\
    (forall e, e <> ERR_NONE -> HRMErr_code e <> HRMErr_code (err st')) /\
    inbox_empty st' = 1 /\
    out_fifo st' = out_fifo st /\
    out_fifo_num_vals st' = out_fifo_num_vals st /\
    hands st' = hands st /\
    mem st' = mem st.
Proof.
  intros Hc Hf Hi Hidx.
  destruct (loop_cond_true st Hc) as (_ & He & _).
  assert (Hb : loop_body pgm mem_len st
               = Some (count_instruction (with_inbox_empty 1 st))).
  { rewrite (loop_body_fetch st i Hf), Hi. unfold case_INBOX.
    rewrite bool_decide_eq_true_2 by exact Hidx. reflexivity. }
  exists (count_instruction (with_inbox_empty 1 st)).
  split.
  { rewrite (execute_loop_step fuel _ _ Hc Hb).
    apply execute_loop_stop, loop_cond_inbox_empty. reflexivity. }
  simpl. rewrite He. repeat split; try reflexivity.
  intros e Hne. destruct e; simpl; first [congruence | lia].
Qed.

(** C8.  A conditional jump with hands that hold no number sets the error
    to code 1 ([ERR_BAD_PARAM_TYPE], the code the jumps use for a bad
    condition type) and [execute] returns it.  With a number in the hands
    no error is raised and the program counter becomes the target
    [param - 1] when the condition holds (zero for JUMP_ZERO, negative for
    JUMP_NEGATIVE) and the next index otherwise. *)
Theorem conditional_jump_step
  (st : VM) (i : HRMInstruction_t) (fuel : nat) :
  1 <= pgm_len <= 255 ->
  loop_cond pgm_len st = true ->
  fetch pgm st = Some i ->
  inst i = JUMP_ZERO \/ inst i = JUMP_NEGATIVE ->
  (type (hands st) <> NUM ->
     exists st',
       loop_body pgm mem_len st = Some st' /\
       err st' = ERR_BAD_PARAM_TYPE /\ HRMErr_code (err st') = 1 /\
       execute_loop (S fuel) pgm pgm_len mem_len st = Returned st')
  /\ (type (hands st) = NUM ->
      exists st',
        loop_body pgm mem_len st = Some st' /\
        err st' = ERR_NONE /\
        pgm_pc st' = (if jump_taken (inst i) (hands st)
                      then jump_target (param i)
                      else pgm_pc st + 1))
  /\ (1 <= val_n (param i) <= 32767 ->
      jump_target (param i) = val_n (param i) - 1).
Proof.
  intros Hlen Hc Hf Hop.
  destruct (loop_cond_true st Hc) as (_ & He & Hpc & _).
  pose proof (fetch_Some st i Hf) as Hpc0.
  rewrite to_u16_id in Hpc by lia.
  assert (Hnext : to_u16 (pgm_pc st + 1) = pgm_pc st + 1)
    by (apply to_u16_id; lia).
  split; [|split].
  - intros Ht.
    assert (Hb : loop_body pgm mem_len st
                 = Some (count_instruction (with_err ERR_BAD_PARAM_TYPE st))).
    { rewrite (loop_body_fetch st i Hf).
      destruct Hop as [-> | ->]; unfold case_JUMP_ZERO, case_JUMP_NEGATIVE;
        rewrite (bool_decide_eq_true_2 (NUM <> type (hands st)))
          by congruence; reflexivity. }
    eexists. split; [exact Hb|]. split; [reflexivity|].
    split; [reflexivity|].
    apply (execute_loop_error fuel st _ Hc Hb). discriminate.
  - intros Ht. rewrite (loop_body_fetch st i Hf).
    destruct Hop as [-> | ->]; unfold case_JUMP_ZERO, case_JUMP_NEGATIVE;
      rewrite (bool_decide_eq_false_2 (NUM <> type (hands st)))
        by congruence;
      eexists; (split; [reflexivity|]); unfold jump_taken;
      repeat case_bool_decide; simpl; first [lia | auto].
  - intros Hn. unfold jump_target. apply to_u16_id. lia.
Qed.

End Loop.

(** ** What the caller can tell from the value [execute] returns *)

(** C7.  When the loop is running and the instruction at the program
    counter is INBOX with the input cursor at or past the end of the input,
    [execute] returns after this iteration with [ERR_NONE], and the output
    array, its count, the hands and the bank are as they were before the
    iteration.  The value returned differs from the one returned by every
    run that an error ends, whatever the program.  It does not differ from
    the one returned by a run that the instruction budget stops: with no
    error raised and the counter above [MAX_INSTRUCTIONS_ALLOWED], [execute]
    returns [ERR_NONE] as well. *)
Theorem inbox_exhausted_outcome
  (pgm : list HRMInstruction_t) (pgm_len mem_len : Z)
  (st : VM) (i : HRMInstruction_t) (fuel : nat) :
  loop_cond pgm_len st = true ->
  fetch pgm st = Some i -> inst i = INBOX ->
  in_fifo_val_idx st >= NUM_INBOX_VALUES ->
  exists st',
    execute_loop (S fuel) pgm pgm_len mem_len st = Returned st' /\
    returned_err (Returned st') = Some ERR_NONE /\
    inbox_empty st' = 1 /\
    out_fifo st' = out_fifo st /\
    out_fifo_num_vals st' = out_fifo_num_vals st /\
    hands st' = hands st /\
    mem st' = mem st /\
    (forall pgm2 pgm_len2 mem_len2 fuel2 s2 s2',
       loop_cond pgm_len2 s2 = true ->
       loop_body pgm2 mem_len2 s2 = Some s2' ->
       err s2' <> ERR_NONE ->
       execute_loop (S fuel2) pgm2 pgm_len2 mem_len2 s2 = Returned s2' /\
       returned_err (Returned s2') <> returned_err (Returned st')) /\
    (forall pgm2 pgm_len2 mem_len2 fuel2 s2,
       err s2 = ERR_NONE ->
       pgm_num_instructions_executed s2 > MAX_INSTRUCTIONS_ALLOWED ->
       execute_loop fuel2 pgm2 pgm_len2 mem_len2 s2 = Returned s2 /\
       returned_err (Returned s2) = returned_err (Returned st')).
Proof.
  intros Hc Hf Hi Hidx.
  destruct (inbox_exhausted_step_returns pgm pgm_len mem_len st i fuel
              Hc Hf Hi Hidx)
    as (st' & Hrun & Hret & _ & Hflag & Hout & Hnum & Hh & Hm).
  exists st'. rewrite Hret.
  repeat (split; [assumption || reflexivity|]). split.
  - intros pgm2 pgm_len2 mem_len2 fuel2 s2 s2' Hc2 Hb2 He2. split.
    + exact (execute_loop_error pgm2 pgm_len2 mem_len2 fuel2 s2 s2'
               Hc2 Hb2 He2).
    + simpl. congruence.
  - intros pgm2 pgm_len2 mem_len2 fuel2 s2 He2 Hn2. split.
    + apply execute_loop_stop. unfold loop_cond.
      rewrite (bool_decide_eq_false_2
                 (pgm_num_instructions_executed s2
                  <= MAX_INSTRUCTIONS_ALLOWED)) by lia.
      apply andb_false_r.
    + simpl. rewrite He2. reflexivity.
Qed.

Lemma inbox_exhausted_outcome_witness :
  exists st',
    execute_loop 1 pgm_zero_preservation_initiative 5 9
      (with_in_idx 8 (entry_state (Num 0) in_fifo_init in_fifo_init
                                  mem_zero_preservation_initiative))
    = Returned st' /\
    returned_err (Returned st') = Some ERR_NONE /\
    out_fifo st' = in_fifo_init.
Proof.
  destruct (inbox_exhausted_outcome
              pgm_zero_preservation_initiative 5 9
              (with_in_idx 8 (entry_state (Num 0) in_fifo_init in_fifo_init
                                          mem_zero_preservation_initiative))
              (instr INBOX zero_val) 0%nat
              eq_refl eq_refl eq_refl
              ltac:(simpl; unfold NUM_INBOX_VALUES; lia))
    as (st' & Hrun & Hret & _ & Hout & _).
  exists st'. split; [exact Hrun|]. split; [exact Hret | exact Hout].
Defined.

(** C7, as it was worded, fails.  The same program is run on two inputs.
    On an input of zeros the ninth INBOX finds the input used up and the
    run returns after 17 instructions; on the sample input the program
    jumps to itself until the budget stops the run after 1001
    instructions.  [execute] returns [ERR_NONE] in both runs: the value it
    returns does not tell the normal end from the budget's. *)
Lemma normal_end_returns_what_budget_end_returns :
  exists st1 st2,
    run_room1 17 pgm_echo_or_spin zero_val in_fifo_zeros = Returned st1 /\
    inbox_empty st1 = 1 /\
    pgm_num_instructions_executed st1 = 17 /\
    run_room1 1001 pgm_echo_or_spin zero_val in_fifo_init = Returned st2 /\
    inbox_empty st2 = 0 /\
    pgm_num_instructions_executed st2 = 1001 /\
    pgm_num_instructions_executed st2 > MAX_INSTRUCTIONS_ALLOWED /\
    returned_err (Returned st1) = returned_err (Returned st2).
Proof.
  do 2 eexists.
  split; [vm_compute; reflexivity|]. split; [reflexivity|].
  split; [reflexivity|].
  split; [vm_compute; reflexivity|]. split; [reflexivity|].
  split; [reflexivity|]. split; [reflexivity|]. reflexivity.
Qed.

(** ** One iteration *)

Lemma verify_direct_addr_ok_get (p : HRMVal_t) (m : list HRMVal_t) (L : Z) :
  int16_range (val_n p) -> uint8_range L -> bank_ok m L ->
  verify_direct_addr p m L = ERR_NONE ->
  0 <= val_n p < Z.of_nat (length m).
Proof.
  intros Hn HL [Hlen _] Hv.
  rewrite (verify_direct_addr_cases p m L Hn HL) in Hv.
  repeat case_bool_decide; first [discriminate | lia].
Qed.

Lemma verify_indirect_addr_defined
  (p : HRMVal_t) (m : list HRMVal_t) (L : Z) :
  int16_range (val_n p) -> uint8_range L -> bank_ok m L ->
  is_Some (verify_indirect_addr p m L).
Proof.
  intros Hn HL Hb. rewrite (verify_indirect_addr_outer p m L Hn HL).
  repeat case_bool_decide; try (eexists; reflexivity).
  destruct (arr_get_in_range m (val_n p)) as [c Hc].
  { destruct Hb as [Hlen _]. lia. }
  rewrite Hc. eexists; reflexivity.
Qed.

Lemma verify_indirect_addr_ok_get
  (p : HRMVal_t) (m : list HRMVal_t) (L : Z) :
  int16_range (val_n p) -> uint8_range L -> bank_ok m L ->
  verify_indirect_addr p m L = Some ERR_NONE ->
  exists c, arr_get m (val_n p) = Some c /\
            0 <= val_n c < Z.of_nat (length m).
Proof.
  intros Hn HL Hb Hv.
  rewrite (verify_indirect_addr_outer p m L Hn HL) in Hv.
  repeat case_bool_decide; try discriminate.
  destruct (arr_get m (val_n p)) as [c|] eqn:Hc; [|discriminate].
  simpl in Hv. exists c. split; [reflexivity|].
  apply (verify_direct_addr_ok_get c m L); auto.
  - exact (bank_ok_cell m L _ c Hb Hc).
  - congruence.
Qed.

Lemma mem_ind_get_defined (p : HRMVal_t) (m : list HRMVal_t) (L : Z) :
  int16_range (val_n p) -> uint8_range L -> bank_ok m L ->
  verify_indirect_addr p m L = Some ERR_NONE ->
  is_Some (mem_ind_get m p).
Proof.
  intros Hn HL Hb Hv.
  destruct (verify_indirect_addr_ok_get p m L Hn HL Hb Hv) as (c & Hc & Hr).
  unfold mem_ind_get. rewrite Hc. simpl. apply arr_get_in_range, Hr.
Qed.

Section Step.

Variable pgm : list HRMInstruction_t.
Variable mem_len : Z.

(** The cases for INBOX, COPYFROM, ADD and SUB never assign to the bank,
    to the output array or to its count, and only INBOX moves the input
    cursor. *)
Lemma loads_hands_frame (st st' : VM) (i : HRMInstruction_t) :
  fetch pgm st = Some i -> loads_hands (inst i) = true ->
  loop_body pgm mem_len st = Some st' ->
  mem st' = mem st /\
  out_fifo st' = out_fifo st /\
  out_fifo_num_vals st' = out_fifo_num_vals st /\
  in_fifo st' = in_fifo st /\
  (inst i <> INBOX -> in_fifo_val_idx st' = in_fifo_val_idx st).
Proof.
  intros Hf Hop. rewrite (loop_body_fetch pgm mem_len st i Hf).
  destruct (inst i); try discriminate Hop; clear Hop;
    unfold case_INBOX, case_COPYFROM, case_COPYFROM_IND,
           case_ADD, case_ADD_IND, case_SUB, case_SUB_IND;
    intros Hb; step_cases; repeat split; congruence.
Qed.

(** On a well-formed bank and input array these cases make no access
    outside an array. *)
Lemma loads_hands_defined (st : VM) (i : HRMInstruction_t) :
  uint8_range mem_len -> bank_ok (mem st) mem_len -> inbox_ok st ->
  int16_range (val_n (param i)) ->
  fetch pgm st = Some i -> loads_hands (inst i) = true ->
  is_Some (loop_body pgm mem_len st).
Proof.
  intros HL Hb [Hin Hidx] Hp Hf Hop.
  rewrite (loop_body_fetch pgm mem_len st i Hf).
  pose proof (verify_direct_addr_ok_get (param i) (mem st) mem_len Hp HL Hb)
    as Hdir.
  pose proof (mem_ind_get_defined (param i) (mem st) mem_len Hp HL Hb)
    as Hind.
  destruct (verify_indirect_addr_defined (param i) (mem st) mem_len Hp HL Hb)
    as [e He].
  destruct (inst i); try discriminate Hop; clear Hop.
  - (* INBOX *)
    unfold case_INBOX. case_bool_decide; [eexists; reflexivity|].
    destruct (arr_get_in_range (in_fifo st) (in_fifo_val_idx st)) as [v Hv];
      [lia|].
    rewrite Hv. eexists; reflexivity.
  - (* COPYFROM *)
    unfold case_COPYFROM. simpl. case_bool_decide as Hok;
      [|eexists; reflexivity].
    destruct (arr_get_in_range (mem st) (val_n (param i))) as [v Hv];
      [apply Hdir; congruence|].
    rewrite Hv. simpl. case_bool_decide; eexists; reflexivity.
  - (* COPYFROM_IND *)
    unfold case_COPYFROM_IND. rewrite He. simpl.
    case_bool_decide as Hok; [|eexists; reflexivity].
    destruct Hind as [v Hv]; [congruence|].
    rewrite Hv. simpl. case_bool_decide; eexists; reflexivity.
  - (* ADD *)
    unfold case_ADD. case_bool_decide; [eexists; reflexivity|]. simpl.
    case_bool_decide as Hok; [|eexists; reflexivity].
    destruct (arr_get_in_range (mem st) (val_n (param i))) as [v Hv];
      [apply Hdir; congruence|].
    rewrite Hv. simpl. repeat case_bool_decide; eexists; reflexivity.
  - (* ADD_IND *)
    unfold case_ADD_IND. case_bool_decide; [eexists; reflexivity|].
    rewrite He. simpl.
    case_bool_decide as Hok; [|eexists; reflexivity].
    destruct Hind as [v Hv]; [congruence|].
    rewrite Hv. simpl. repeat case_bool_decide; eexists; reflexivity.
  - (* SUB *)
    unfold case_SUB. case_bool_decide; [eexists; reflexivity|]. simpl.
    case_bool_decide as Hok; [|eexists; reflexivity].
    destruct (arr_get_in_range (mem st) (val_n (param i))) as [v Hv];
      [apply Hdir; congruence|].
    rewrite Hv. simpl. repeat case_bool_decide; eexists; reflexivity.
  - (* SUB_IND *)
    unfold case_SUB_IND. case_bool_decide; [eexists; reflexivity|].
    rewrite He. simpl.
    case_bool_decide as Hok; [|eexists; reflexivity].
    destruct Hind as [v Hv]; [congruence|].
    rewrite Hv. simpl. repeat case_bool_decide; eexists; reflexivity.
Qed.

(** C10.  An INBOX, COPYFROM, ADD or SUB step (direct or indirect) on a
    well-formed bank and input array is defined and leaves the bank exactly
    as it was, as it does the output array and its count; the input cursor
    moves for INBOX only. *)
Theorem hands_loading_step_frame (st : VM) (i : HRMInstruction_t) :
  uint8_range mem_len -> bank_ok (mem st) mem_len -> inbox_ok st ->
  int16_range (val_n (param i)) ->
  fetch pgm st = Some i -> loads_hands (inst i) = true ->
  exists st',
    loop_body pgm mem_len st = Some st' /\
    mem st' = mem st /\
    out_fifo st' = out_fifo st /\
    out_fifo_num_vals st' = out_fifo_num_vals st /\
    in_fifo st' = in_fifo st /\
    (inst i <> INBOX -> in_fifo_val_idx st' = in_fifo_val_idx st).
Proof.
  intros HL Hb Hin Hp Hf Hop.
  destruct (loads_hands_defined st i HL Hb Hin Hp Hf Hop) as [st' Hst'].
  exists st'. split; [exact Hst'|].
  exact (loads_hands_frame st st' i Hf Hop Hst').
Qed.

End Step.

(** ** Witnesses of the step and loop theorems *)

Lemma conditional_jump_step_witness :
  (exists st',
     execute_loop 1 pgm_zero_preservation_initiative 5 9
       (with_pc 1 (entry_state zero_val in_fifo_init out_fifo_init
                               mem_zero_preservation_initiative))
     = Returned st' /\ err st' = ERR_BAD_PARAM_TYPE)
  /\ (exists st',
        loop_body pgm_zero_preservation_initiative 9
          (with_pc 1 (entry_state (Num 0) in_fifo_init out_fifo_init
                                  mem_zero_preservation_initiative))
        = Some st' /\ pgm_pc st' = 3)
  /\ (exists st',
        loop_body pgm_zero_preservation_initiative 9
          (with_pc 1 (entry_state (Num 7) in_fifo_init out_fifo_init
                                  mem_zero_preservation_initiative))
        = Some st' /\ pgm_pc st' = 2).
Proof.
  split; [|split].
  - destruct (conditional_jump_step pgm_zero_preservation_initiative 5 9
                (with_pc 1 (entry_state zero_val in_fifo_init out_fifo_init
                                        mem_zero_preservation_initiative))
                (instr JUMP_ZERO (prog_addr 4)) 0%nat
                ltac:(lia) eq_refl eq_refl (or_introl eq_refl))
      as (Hbad & _ & _).
    destruct (Hbad ltac:(discriminate)) as (st' & _ & Herr & _ & Hrun).
    exists st'. split; assumption.
  - destruct (conditional_jump_step pgm_zero_preservation_initiative 5 9
                (with_pc 1 (entry_state (Num 0) in_fifo_init out_fifo_init
                                        mem_zero_preservation_initiative))
                (instr JUMP_ZERO (prog_addr 4)) 0%nat
                ltac:(lia) eq_refl eq_refl (or_introl eq_refl))
      as (_ & Hnum & _).
    destruct (Hnum eq_refl) as (st' & Hbody & _ & Hpc).
    exists st'. split; [exact Hbody|]. rewrite Hpc. reflexivity.
  - destruct (conditional_jump_step pgm_zero_preservation_initiative 5 9
                (with_pc 1 (entry_state (Num 7) in_fifo_init out_fifo_init
                                        mem_zero_preservation_initiative))
                (instr JUMP_ZERO (prog_addr 4)) 0%nat
                ltac:(lia) eq_refl eq_refl (or_introl eq_refl))
      as (_ & Hnum & _).
    destruct (Hnum eq_refl) as (st' & Hbody & _ & Hpc).
    exists st'. split; [exact Hbody|]. rewrite Hpc. reflexivity.
Defined.

Lemma hands_loading_step_frame_witness :
  exists st',
    loop_body pgm_copyfrom 1 (entry_room1 (Num 1) in_fifo_init) = Some st' /\
    mem st' = room1 (Num 1).
Proof.
  assert (HL : uint8_range 1) by (unfold uint8_range; lia).
  assert (Hb : bank_ok (mem (entry_room1 (Num 1) in_fifo_init)) 1).
  { split; [reflexivity|].
    repeat constructor; unfold int16_range; simpl; lia. }
  assert (Hin : inbox_ok (entry_room1 (Num 1) in_fifo_init)).
  { split; [reflexivity | simpl; lia]. }
  assert (Hp : int16_range (val_n (param (instr COPYFROM (Num 0)))))
    by (unfold int16_range; simpl; lia).
  destruct (hands_loading_step_frame pgm_copyfrom 1
              (entry_room1 (Num 1) in_fifo_init) (instr COPYFROM (Num 0))
              HL Hb Hin Hp eq_refl eq_refl)
    as (st' & Hbody & Hmem & _).
  exists st'. split; [exact Hbody | exact Hmem].
Defined.

(** ** What the addressed cases leave undone *)

Section AddressedCases.

Variable pgm : list HRMInstruction_t.
Variable mem_len : Z.

(** No case of an addressed opcode assigns to [pgm_pc] or to
    [pgm_num_instructions_executed]: only INBOX, OUTBOX and the jumps do. *)
Lemma addressed_step_keeps_pc_and_count
  (st st' : VM) (i : HRMInstruction_t) :
  fetch pgm st = Some i -> addressed (inst i) = true ->
  loop_body pgm mem_len st = Some st' ->
  pgm_pc st' = pgm_pc st /\
  pgm_num_instructions_executed st' = pgm_num_instructions_executed st /\
  inbox_empty st' = inbox_empty st.
Proof.
  intros Hf Hop. rewrite (loop_body_fetch pgm mem_len st i Hf).
  destruct (inst i); try discriminate Hop; clear Hop;
    unfold case_COPYFROM, case_COPYFROM_IND, case_COPYTO, case_COPYTO_IND,
           case_ADD, case_ADD_IND, case_SUB, case_SUB_IND,
           case_BUMP_PLUS, case_BUMP_PLUS_IND,
           case_BUMP_MINUS, case_BUMP_MINUS_IND;
    intros Hb; step_cases; repeat split; congruence.
Qed.

(** An iteration that ends in an error has written neither the bank nor
    the output array; it has written the hands only in the ADD and SUB
    cases. *)
Lemma error_step_frame (st st' : VM) (i : HRMInstruction_t) :
  err st = ERR_NONE ->
  fetch pgm st = Some i ->
  loop_body pgm mem_len st = Some st' ->
  err st' <> ERR_NONE ->
  mem st' = mem st /\
  out_fifo st' = out_fifo st /\
  out_fifo_num_vals st' = out_fifo_num_vals st /\
  (inst i <> ADD -> inst i <> ADD_IND ->
   inst i <> SUB -> inst i <> SUB_IND -> hands st' = hands st).
Proof.
  intros He Hf. rewrite (loop_body_fetch pgm mem_len st i Hf).
  destruct (inst i);
    unfold case_INBOX, case_OUTBOX,
           case_COPYFROM, case_COPYFROM_IND, case_COPYTO, case_COPYTO_IND,
           case_ADD, case_ADD_IND, case_SUB, case_SUB_IND,
           case_BUMP_PLUS, case_BUMP_PLUS_IND,
           case_BUMP_MINUS, case_BUMP_MINUS_IND,
           case_JUMP, case_JUMP_ZERO, case_JUMP_NEGATIVE;
    intros Hb Herr; step_cases; repeat split; congruence.
Qed.

(** The range test of ADD as the code makes it, for number operands at a
    valid direct address whose sum fits an [int16_t]: the sum is stored in
    the hands first; below 999 the error is [ERR_UNDERFLOW], above 999 it is
    [ERR_OVERFLOW], and exactly 999 raises no error. *)
Lemma case_ADD_range (p : HRMVal_t) (st : VM) (h c : Z) :
  hands st = Num h ->
  verify_direct_addr p (mem st) mem_len = ERR_NONE ->
  arr_get (mem st) (val_n p) = Some (Num c) ->
  int16_range (h + c) ->
  exists st',
    case_ADD p mem_len st = Some st' /\
    hands st' = Num (h + c) /\
    err st' = (if bool_decide (h + c < 999) then ERR_UNDERFLOW
               else if bool_decide (h + c > 999) then ERR_OVERFLOW
               else ERR_NONE).
Proof.
  intros Hh Hv Hc Hr. unfold case_ADD, verify_hands_hold_number,
    verify_hands_not_empty.
  rewrite Hh, Hv. cbn -[to_i16]. rewrite Hc. cbn -[to_i16].
  rewrite !Hh. cbn -[to_i16]. rewrite (to_i16_id (h + c) Hr).
  repeat case_bool_decide; simpl in *; try congruence;
    eexists; repeat split; reflexivity.
Qed.

(** The range test of BUMP_MINUS as the code makes it: every decremented
    value below 999 raises [ERR_UNDERFLOW] and leaves the cell as it was. *)
Lemma case_BUMP_MINUS_range (p : HRMVal_t) (st : VM) (c : Z) :
  verify_direct_addr p (mem st) mem_len = ERR_NONE ->
  arr_get (mem st) (val_n p) = Some (Num c) ->
  int16_range (c - 1) -> c - 1 < 999 ->
  exists st',
    case_BUMP_MINUS p mem_len st = Some st' /\
    err st' = ERR_UNDERFLOW /\ mem st' = mem st /\ hands st' = hands st.
Proof.
  intros Hv Hc Hr Hlt. unfold case_BUMP_MINUS.
  rewrite Hv. cbn -[to_i16]. rewrite Hc. cbn -[to_i16].
  rewrite (to_i16_id (c - 1) Hr).
  rewrite (bool_decide_eq_true_2 (c - 1 < 999)) by exact Hlt.
  eexists; repeat split; reflexivity.
Qed.

(** COPYTO on a valid address: the cell receives the hands, whatever their
    type (there is no test for empty hands), and the hands' tag becomes
    [EMPTY]. *)
Lemma case_COPYTO_stores (p : HRMVal_t) (st : VM) :
  verify_direct_addr p (mem st) mem_len = ERR_NONE ->
  0 <= val_n p < Z.of_nat (length (mem st)) ->
  exists st',
    case_COPYTO p mem_len st = Some st' /\
    err st' = ERR_NONE /\
    mem st' = <[Z.to_nat (val_n p) := hands st]> (mem st) /\
    arr_get (mem st') (val_n p) = Some (hands st) /\
    type (hands st') = EMPTY.
Proof.
  intros Hv Hr. unfold case_COPYTO, arr_set. rewrite Hv. simpl.
  rewrite bool_decide_eq_true_2 by exact Hr. simpl.
  eexists. repeat split.
  unfold arr_get. rewrite bool_decide_eq_true_2 by lia.
  apply list_lookup_insert_eq. lia.
Qed.

End AddressedCases.

(** ** The run [main] makes *)

(** The sample program echoes the zeros of the sample input: the run returns
    [ERR_NONE] from the INBOX that finds the input used up, after 30
    instructions, with the five zeros in the output array. *)
Example main_run_trace :
  exists st,
    main_run 30 = Returned st /\
    err st = ERR_NONE /\ inbox_empty st = 1 /\
    pgm_num_instructions_executed st = 30 /\
    out_fifo_num_vals st = 5 /\
    take 5 (out_fifo st) = replicate 5 (Num 0) /\
    mem st = mem_zero_preservation_initiative.
Proof. eexists. split; [vm_compute; reflexivity|]. repeat split. Qed.

(** ** Runs on which the code departs from its documentation *)

(** C1.  ADD with the number 1 in the hands and the number 1 in the cell:
    the sum 2 lies within [-999, 999], yet the run returns [ERR_UNDERFLOW];
    and BUMP_MINUS of a cell that holds 5 returns [ERR_UNDERFLOW] as well,
    with the cell still 5.  (The tests compare with 999, not with -999.) *)
Theorem in_range_results_reported_as_underflow :
  (exists st,
     run_room1 5 pgm_inbox_add (Num 1) (in_fifo_of (Num 1)) = Returned st /\
     err st = ERR_UNDERFLOW /\ hands st = Num 2)
  /\ (exists st,
        run_room1 5 pgm_bump_minus (Num 5) in_fifo_init = Returned st /\
        err st = ERR_UNDERFLOW /\ mem st = room1 (Num 5)).
Proof. split; eexists; (split; [vm_compute; reflexivity|]); split; reflexivity. Qed.

(** C2.  A COPYFROM that succeeds (no error, the cell's value in the hands)
    leaves the program counter where it was, so the next iteration decodes
    the same instruction again. *)
Theorem copyfrom_success_keeps_pc :
  exists st',
    loop_body pgm_copyfrom 1 (entry_room1 (Num 1) in_fifo_init) = Some st' /\
    err st' = ERR_NONE /\ hands st' = Num 1 /\
    pgm_pc st' = pgm_pc (entry_room1 (Num 1) in_fifo_init) /\
    fetch pgm_copyfrom st' = fetch pgm_copyfrom (entry_room1 (Num 1) in_fifo_init).
Proof. eexists. split; [vm_compute; reflexivity|]. repeat split. Qed.

Lemma copyfrom_spins (fuel : nat) :
  execute_loop fuel pgm_copyfrom 1 1
    (with_hands (Num 1) (entry_room1 (Num 1) in_fifo_init)) = OutOfFuel.
Proof.
  induction fuel as [|fuel IH]; [reflexivity|].
  rewrite (execute_loop_step pgm_copyfrom 1 1 fuel
             (with_hands (Num 1) (entry_room1 (Num 1) in_fifo_init))
             (with_hands (Num 1) (entry_room1 (Num 1) in_fifo_init))
             eq_refl eq_refl).
  exact IH.
Qed.

(** C3.  On the one-instruction program COPYFROM 0 over a cell that holds a
    number, [execute] never returns: however many iterations it is allotted,
    the loop is still running, with the instruction counter still 0. *)
Theorem copyfrom_run_never_returns (fuel : nat) :
  run_room1 fuel pgm_copyfrom (Num 1) in_fifo_init = OutOfFuel.
Proof.
  destruct fuel as [|fuel]; [reflexivity|].
  change (run_room1 (S fuel) pgm_copyfrom (Num 1) in_fifo_init)
    with (execute_loop (S fuel) pgm_copyfrom 1 1
            (entry_room1 (Num 1) in_fifo_init)).
  rewrite (execute_loop_step pgm_copyfrom 1 1 fuel
             (entry_room1 (Num 1) in_fifo_init)
             (with_hands (Num 1) (entry_room1 (Num 1) in_fifo_init))
             eq_refl eq_refl).
  apply copyfrom_spins.
Qed.

(** Where the counter is kept, the loop is entered with the counter at 1000:
    a program that jumps to itself executes 1001 instructions, and the run
    then returns [ERR_NONE]. *)
Lemma jump_self_executes_1001 :
  exists st,
    run_room1 1001 pgm_jump_self zero_val in_fifo_init = Returned st /\
    pgm_num_instructions_executed st = 1001 /\ err st = ERR_NONE /\
    run_room1 1000 pgm_jump_self zero_val in_fifo_init = OutOfFuel.
Proof.
  eexists. split; [vm_compute; reflexivity|].
  split; [reflexivity|]. split; [reflexivity|].
  vm_compute. reflexivity.
Qed.

(** C4.  COPYTO with empty hands on a valid address raises no error and
    overwrites the cell, which held the number 5, with the empty value. *)
Theorem copyto_empty_hands_overwrites_cell :
  type (hands (entry_room1 (Num 5) in_fifo_init)) = EMPTY /\
  exists st',
    loop_body pgm_copyto 1 (entry_room1 (Num 5) in_fifo_init) = Some st' /\
    err st' = ERR_NONE /\
    mem st' = room1 zero_val /\
    mem st' <> mem (entry_room1 (Num 5) in_fifo_init).
Proof.
  split; [reflexivity|]. eexists. split; [vm_compute; reflexivity|].
  repeat split. discriminate.
Qed.

(** C9.  INBOX brings 999 into the hands; the ADD of a cell that holds 1
    then halts the run with [ERR_OVERFLOW], and the hands are left holding
    1000, not the 999 they held when INBOX completed. *)
Theorem add_overflow_leaves_hands_mutated :
  exists st1 st2,
    loop_body pgm_inbox_add 1 (entry_room1 (Num 1) (in_fifo_of (Num 999)))
    = Some st1 /\
    hands st1 = Num 999 /\ err st1 = ERR_NONE /\
    loop_body pgm_inbox_add 1 st1 = Some st2 /\
    run_room1 5 pgm_inbox_add (Num 1) (in_fifo_of (Num 999)) = Returned st2 /\
    err st2 = ERR_OVERFLOW /\
    hands st2 = Num 1000 /\ hands st2 <> hands st1.
Proof.
  do 2 eexists. split; [vm_compute; reflexivity|].
  split; [reflexivity|]. split; [reflexivity|].
  split; [vm_compute; reflexivity|].
  split; [vm_compute; reflexivity|].
  repeat split. discriminate.
Qed.


(** * Further properties of the interpreter *)

(** ** Validation and the cell an addressed case works on *)

Lemma to_i16_range (z : Z) : int16_range (to_i16 z).
Proof.
  unfold int16_range, to_i16.
  pose proof (Z.mod_pos_bound (z + 32768) 65536 ltac:(lia)). lia.
Qed.

Lemma verify_addr_defined
  (op : HRMInstructionType_t) (p : HRMVal_t) (m : list HRMVal_t) (L : Z) :
  val_ok p -> uint8_range L -> bank_ok m L ->
  is_Some (verify_addr op p m L).
Proof.
  intros Hp HL Hb. unfold verify_addr. destruct (indirect op).
  - apply verify_indirect_addr_defined; assumption.
  - eexists; reflexivity.
Qed.

Lemma verify_addr_ok
  (op : HRMInstructionType_t) (p : HRMVal_t) (m : list HRMVal_t) (L : Z) :
  val_ok p -> uint8_range L -> bank_ok m L ->
  verify_addr op p m L = Some ERR_NONE ->
  exists a v,
    effective_addr op m p = Some a /\
    0 <= a < L /\
    arr_get m a = Some v /\
    (indirect op = false ->
       a = val_n p /\ verify_direct_addr p m L = ERR_NONE) /\
    (indirect op = true ->
       verify_indirect_addr p m L = Some ERR_NONE /\
       mem_ind_get m p = Some v /\
       exists c, arr_get m (val_n p) = Some c /\ val_n c = a).
Proof.
  intros Hp HL Hb. unfold verify_addr, effective_addr.
  destruct (indirect op); intros Hv.
  - destruct (verify_indirect_addr_ok_get p m L Hp HL Hb Hv) as (c & Hc & Hr).
    destruct (arr_get_in_range m (val_n c) Hr) as [v Hget].
    exists (val_n c), v. rewrite Hc. simpl.
    destruct Hb as [Hlen _].
    repeat split; try lia; try assumption; try discriminate.
    + unfold mem_ind_get. rewrite Hc. exact Hget.
    + exists c. split; reflexivity.
  - injection Hv as Hv.
    pose proof (verify_direct_addr_ok_get p m L Hp HL Hb Hv) as Hr.
    destruct (arr_get_in_range m (val_n p) Hr) as [v Hget].
    exists (val_n p), v. destruct Hb as [Hlen _].
    repeat split; try lia; try assumption; try discriminate.
Qed.

(** Validation never answers with a code of the other validator's caller:
    the direct validator has two codes, the indirect one adds two. *)
Lemma verify_direct_addr_codes (p : HRMVal_t) (m : list HRMVal_t) (L : Z) :
  In (verify_direct_addr p m L)
     [ERR_NONE; ERR_INVALID_TYPE_FOR_DIRECT_ADDR; ERR_DIRECT_ADDR_OUT_OF_RANGE].
Proof.
  unfold verify_direct_addr. repeat case_bool_decide; simpl; auto.
Qed.

Lemma verify_indirect_addr_codes
  (p : HRMVal_t) (m : list HRMVal_t) (L : Z) (e : HRMErr_t) :
  verify_indirect_addr p m L = Some e ->
  In e [ERR_NONE; ERR_INVALID_TYPE_FOR_INDIRECT_ADDR;
        ERR_INDIRECT_ADDR_OUT_OF_RANGE;
        ERR_INVALID_TYPE_FOR_DIRECT_ADDR; ERR_DIRECT_ADDR_OUT_OF_RANGE].
Proof.
  unfold verify_indirect_addr. intros H.
  repeat (case_bool_decide || simplify_option_eq); simpl; auto.
  match goal with
  | |- context [verify_direct_addr ?c ?m ?L] =>
      pose proof (verify_direct_addr_codes c m L) as Hd
  end.
  simpl in Hd. tauto.
Qed.

Section Cases.

Variable pgm : list HRMInstruction_t.
Variable mem_len : Z.

(** X1.  ADD and SUB test the hands before anything else.  Hands that hold no
    number, empty hands included, end the step with the opcode's own
    bad-operand code, whatever the parameter and the bank are, and nothing
    else in the state changes. *)
Theorem arith_hands_checked_first (st : VM) (i : HRMInstruction_t) :
  fetch pgm st = Some i -> arith (inst i) = true ->
  type (hands st) <> NUM ->
  loop_body pgm mem_len st = Some (with_err (bad_hands_code (inst i)) st).
Proof.
  intros Hf Hop Ht. rewrite (loop_body_fetch pgm mem_len st i Hf).
  assert (Hh : verify_hands_hold_number (hands st) <> ERR_NONE).
  { unfold verify_hands_hold_number, verify_hands_not_empty.
    repeat case_bool_decide; simpl; congruence. }
  destruct (inst i); try discriminate Hop;
    unfold case_ADD, case_ADD_IND, case_SUB, case_SUB_IND;
    rewrite bool_decide_eq_true_2 by congruence; reflexivity.
Qed.

(** X2.  An address the validator rejects ends the step of COPYFROM, COPYTO and
    the two BUMPs (and of ADD and SUB when the hands hold a number) with the
    validator's code, and nothing else in the state changes. *)
Theorem address_error_reported
  (st : VM) (i : HRMInstruction_t) (e : HRMErr_t) :
  fetch pgm st = Some i -> addressed (inst i) = true ->
  (arith (inst i) = true -> type (hands st) = NUM) ->
  verify_addr (inst i) (param i) (mem st) mem_len = Some e ->
  e <> ERR_NONE ->
  loop_body pgm mem_len st = Some (with_err e st).
Proof.
  intros Hf Hop Hh Hv He. rewrite (loop_body_fetch pgm mem_len st i Hf).
  assert (Hnum : arith (inst i) = true ->
                 verify_hands_hold_number (hands st) = ERR_NONE).
  { intros Ha. specialize (Hh Ha).
    unfold verify_hands_hold_number, verify_hands_not_empty.
    repeat case_bool_decide; simpl in *; congruence. }
  unfold verify_addr in Hv.
  destruct (inst i); try discriminate Hop; simpl in Hv, Hnum;
    unfold case_COPYFROM, case_COPYFROM_IND, case_COPYTO, case_COPYTO_IND,
           case_ADD, case_ADD_IND, case_SUB, case_SUB_IND,
           case_BUMP_PLUS, case_BUMP_PLUS_IND,
           case_BUMP_MINUS, case_BUMP_MINUS_IND;
    rewrite ?Hnum by reflexivity;
    rewrite ?(bool_decide_eq_false_2 (ERR_NONE <> ERR_NONE)) by congruence;
    try rewrite Hv; try (injection Hv as ->); simpl;
    rewrite bool_decide_eq_false_2 by congruence; reflexivity.
Qed.

End Cases.

Section ValidAddress.

Variable pgm : list HRMInstruction_t.
Variable mem_len : Z.

(** X3.  COPYFROM and COPYFROM_IND on an address that validates: the cell worked
    on lies inside the bank; when it is empty the step ends with the
    opcode's reading-empty code and the hands are kept, otherwise the hands
    become a copy of the cell and no error is raised.  The bank is not
    written. *)
Theorem copyfrom_step (st : VM) (i : HRMInstruction_t) :
  uint8_range mem_len -> bank_ok (mem st) mem_len -> val_ok (param i) ->
  fetch pgm st = Some i ->
  inst i = COPYFROM \/ inst i = COPYFROM_IND ->
  verify_addr (inst i) (param i) (mem st) mem_len = Some ERR_NONE ->
  exists a v st',
    effective_addr (inst i) (mem st) (param i) = Some a /\
    0 <= a < mem_len /\
    arr_get (mem st) a = Some v /\
    loop_body pgm mem_len st = Some st' /\
    mem st' = mem st /\
    (type v = EMPTY ->
       err st' = empty_cell_code (inst i) /\ hands st' = hands st) /\
    (type v <> EMPTY -> err st' = ERR_NONE /\ hands st' = v).
Proof.
  intros HL Hb Hp Hf Hop Hv.
  destruct (verify_addr_ok (inst i) (param i) (mem st) mem_len Hp HL Hb Hv)
    as (a & v & Ha & Hr & Hget & Hdir & Hind).
  exists a, v. rewrite (loop_body_fetch pgm mem_len st i Hf).
  destruct Hop as [Hop | Hop]; rewrite Hop in *; simpl in Hdir, Hind.
  - destruct (Hdir eq_refl) as [-> Hvd].
    unfold case_COPYFROM. rewrite Hvd. simpl. rewrite Hget. simpl.
    case_bool_decide; eexists; repeat split; auto; intros; simpl;
      first [lia | congruence].
  - destruct (Hind eq_refl) as (Hvi & Hmg & _).
    unfold case_COPYFROM_IND. rewrite Hvi. simpl. rewrite Hmg. simpl.
    case_bool_decide; eexists; repeat split; auto; intros; simpl;
      first [lia | congruence].
Qed.

(** X4.  COPYTO and COPYTO_IND on an address that validates: the cell worked on
    receives the hands as they are, every other cell keeps its value, the
    bank keeps its length, and the hands keep their number under the tag
    [EMPTY].  No error is raised. *)
Theorem copyto_step (st : VM) (i : HRMInstruction_t) :
  uint8_range mem_len -> bank_ok (mem st) mem_len -> val_ok (param i) ->
  fetch pgm st = Some i ->
  inst i = COPYTO \/ inst i = COPYTO_IND ->
  verify_addr (inst i) (param i) (mem st) mem_len = Some ERR_NONE ->
  exists a st',
    effective_addr (inst i) (mem st) (param i) = Some a /\
    0 <= a < mem_len /\
    loop_body pgm mem_len st = Some st' /\
    err st' = ERR_NONE /\
    arr_get (mem st') a = Some (hands st) /\
    (forall b, b <> a -> arr_get (mem st') b = arr_get (mem st) b) /\
    length (mem st') = length (mem st) /\
    hands st' = set_type EMPTY (hands st).
Proof.
  intros HL Hb Hp Hf Hop Hv.
  destruct (verify_addr_ok (inst i) (param i) (mem st) mem_len Hp HL Hb Hv)
    as (a & v & Ha & Hr & Hget & Hdir & Hind).
  pose proof (arr_get_Some_range _ _ _ Hget) as Hlen.
  assert (Hset : arr_set (mem st) a (hands st)
                 = Some (<[Z.to_nat a := hands st]> (mem st))).
  { unfold arr_set. rewrite bool_decide_eq_true_2 by exact Hlen.
    reflexivity. }
  assert (Hframe :
    arr_get (<[Z.to_nat a := hands st]> (mem st)) a = Some (hands st) /\
    (forall b, b <> a ->
       arr_get (<[Z.to_nat a := hands st]> (mem st)) b
       = arr_get (mem st) b) /\
    length (<[Z.to_nat a := hands st]> (mem st)) = length (mem st)).
  { split; [|split].
    - unfold arr_get. rewrite bool_decide_eq_true_2 by lia.
      apply list_lookup_insert_eq. lia.
    - intros b Hne. unfold arr_get. case_bool_decide; [|reflexivity].
      apply list_lookup_insert_ne. lia.
    - apply length_insert. }
  exists a. rewrite (loop_body_fetch pgm mem_len st i Hf).
  destruct Hop as [Hop | Hop]; rewrite Hop in *; simpl in Hdir, Hind.
  - destruct (Hdir eq_refl) as [-> Hvd].
    unfold case_COPYTO. rewrite Hvd. simpl. rewrite Hset. simpl.
    eexists. repeat split; try tauto; try lia.
  - destruct (Hind eq_refl) as (Hvi & _ & c & Hc & Hca).
    unfold case_COPYTO_IND, mem_ind_set. rewrite Hvi. simpl.
    rewrite Hc. simpl. rewrite Hca, Hset. simpl.
    eexists. repeat split; try tauto; try lia.
Qed.

(** X5.  ADD, SUB and the BUMPs on an address that validates (with a number in
    the hands for ADD and SUB): a cell that does not hold a number, an empty
    cell included, ends the step with the opcode's bad-type-in-memory code,
    and neither the bank nor the hands are written. *)
Theorem operand_cell_must_be_number (st : VM) (i : HRMInstruction_t) :
  uint8_range mem_len -> bank_ok (mem st) mem_len -> val_ok (param i) ->
  fetch pgm st = Some i ->
  addressed (inst i) = true ->
  inst i <> COPYFROM -> inst i <> COPYFROM_IND ->
  inst i <> COPYTO -> inst i <> COPYTO_IND ->
  (arith (inst i) = true -> type (hands st) = NUM) ->
  verify_addr (inst i) (param i) (mem st) mem_len = Some ERR_NONE ->
  exists a v,
    effective_addr (inst i) (mem st) (param i) = Some a /\
    arr_get (mem st) a = Some v /\
    (type v <> NUM ->
     loop_body pgm mem_len st = Some (with_err (bad_cell_code (inst i)) st)).
Proof.
  intros HL Hb Hp Hf Hop H1 H2 H3 H4 Hh Hv.
  destruct (verify_addr_ok (inst i) (param i) (mem st) mem_len Hp HL Hb Hv)
    as (a & v & Ha & Hr & Hget & Hdir & Hind).
  exists a, v. split; [exact Ha|]. split; [exact Hget|]. intros Ht.
  rewrite (loop_body_fetch pgm mem_len st i Hf).
  assert (Hnum : arith (inst i) = true ->
                 verify_hands_hold_number (hands st) = ERR_NONE).
  { intros Harith. specialize (Hh Harith).
    unfold verify_hands_hold_number, verify_hands_not_empty.
    repeat case_bool_decide; simpl in *; congruence. }
  destruct (inst i); try discriminate Hop; try congruence;
    simpl in Hdir, Hind, Hnum;
    unfold case_ADD, case_ADD_IND, case_SUB, case_SUB_IND,
           case_BUMP_PLUS, case_BUMP_PLUS_IND,
           case_BUMP_MINUS, case_BUMP_MINUS_IND;
    rewrite ?Hnum by reflexivity;
    rewrite ?(bool_decide_eq_false_2 (ERR_NONE <> ERR_NONE)) by congruence;
    first [ destruct (Hdir eq_refl) as [-> Hvd]; rewrite Hvd; simpl;
            rewrite Hget
          | destruct (Hind eq_refl) as (Hvi & Hmg & _); rewrite Hvi; simpl;
            rewrite Hmg ];
    simpl; rewrite bool_decide_eq_true_2 by exact Ht;
    destruct st; reflexivity.
Qed.

End ValidAddress.

Section OtherCases.

Variable pgm : list HRMInstruction_t.
Variable mem_len : Z.

(** X6.  BUMP_PLUS and BUMP_PLUS_IND on an address that validates and a cell that
    holds a number below 32767: when the incremented number exceeds 999 the
    step ends with [ERR_OVERFLOW] and nothing else changes; otherwise the
    cell and the hands both receive the incremented number, every other cell
    keeps its value and no error is raised. *)
Theorem bump_plus_step (st : VM) (i : HRMInstruction_t) :
  uint8_range mem_len -> bank_ok (mem st) mem_len -> val_ok (param i) ->
  fetch pgm st = Some i ->
  inst i = BUMP_PLUS \/ inst i = BUMP_PLUS_IND ->
  verify_addr (inst i) (param i) (mem st) mem_len = Some ERR_NONE ->
  exists a v,
    effective_addr (inst i) (mem st) (param i) = Some a /\
    arr_get (mem st) a = Some v /\
    (type v = NUM -> val_n v < 32767 ->
     (val_n v + 1 > 999 ->
        loop_body pgm mem_len st = Some (with_err ERR_OVERFLOW st)) /\
     (val_n v + 1 <= 999 ->
        exists st',
          loop_body pgm mem_len st = Some st' /\
          err st' = ERR_NONE /\
          hands st' = Num (val_n v + 1) /\
          arr_get (mem st') a = Some (Num (val_n v + 1)) /\
          (forall b, b <> a -> arr_get (mem st') b = arr_get (mem st) b) /\
          length (mem st') = length (mem st))).
Proof.
  intros HL Hb Hp Hf Hop Hv.
  destruct (verify_addr_ok (inst i) (param i) (mem st) mem_len Hp HL Hb Hv)
    as (a & v & Ha & Hr & Hget & Hdir & Hind).
  pose proof (arr_get_Some_range _ _ _ Hget) as Hlen.
  pose proof (bank_ok_cell _ _ _ _ Hb Hget) as Hvr.
  exists a, v. split; [exact Ha|]. split; [exact Hget|]. intros Ht Hmax.
  assert (Hw : to_i16 (val_n v + 1) = val_n v + 1).
  { apply to_i16_id. unfold int16_range in *. lia. }
  assert (Hnew : set_val_n (to_i16 (val_n v + 1)) v = Num (val_n v + 1)).
  { unfold set_val_n, Num. rewrite Hw, Ht. reflexivity. }
  assert (Hset : forall x, arr_set (mem st) a x
                           = Some (<[Z.to_nat a := x]> (mem st))).
  { intros x. unfold arr_set. rewrite bool_decide_eq_true_2 by exact Hlen.
    reflexivity. }
  assert (Hbody :
    loop_body pgm mem_len st =
      if bool_decide (val_n v + 1 > 999)
      then Some (with_err ERR_OVERFLOW (with_err ERR_NONE st))
      else Some (with_hands (Num (val_n v + 1))
                   (with_mem (<[Z.to_nat a := Num (val_n v + 1)]> (mem st))
                             (with_err ERR_NONE st)))).
  { rewrite (loop_body_fetch pgm mem_len st i Hf).
    destruct Hop as [Hop | Hop]; rewrite Hop in *; simpl in Hdir, Hind.
    - destruct (Hdir eq_refl) as [-> Hvd].
      unfold case_BUMP_PLUS. rewrite Hvd. cbn -[to_i16].
      rewrite (bool_decide_eq_true_2 (ERR_NONE = ERR_NONE)) by reflexivity.
      rewrite Hget.
      cbn -[to_i16]. rewrite (bool_decide_eq_false_2 (type v <> NUM)) by tauto.
      rewrite Hnew, Hw. cbn -[to_i16]. case_bool_decide; [reflexivity|].
      rewrite Hset. reflexivity.
    - destruct (Hind eq_refl) as (Hvi & Hmg & c & Hc & Hca).
      unfold case_BUMP_PLUS_IND, mem_ind_set. rewrite Hvi. cbn -[to_i16].
      rewrite (bool_decide_eq_true_2 (ERR_NONE = ERR_NONE)) by reflexivity.
      rewrite Hmg. cbn -[to_i16].
      rewrite (bool_decide_eq_false_2 (type v <> NUM)) by tauto.
      rewrite Hnew, Hw. cbn -[to_i16]. case_bool_decide; [reflexivity|].
      rewrite Hc. cbn -[to_i16]. rewrite Hca, Hset. reflexivity. }
  rewrite Hbody. split.
  - intros Hbig. rewrite bool_decide_eq_true_2 by exact Hbig.
    destruct st; reflexivity.
  - intros Hsmall. rewrite bool_decide_eq_false_2 by lia.
    eexists. split; [reflexivity|]. simpl.
    split; [reflexivity|]. split; [reflexivity|]. split; [|split].
    + unfold arr_get. rewrite bool_decide_eq_true_2 by lia.
      apply list_lookup_insert_eq. lia.
    + intros b Hne. unfold arr_get.
      destruct (bool_decide (0 <= b)) eqn:Hb0; [|reflexivity].
      apply bool_decide_eq_true in Hb0.
      apply list_lookup_insert_ne. lia.
    + apply length_insert.
Qed.

(** X7.  OUTBOX.  With empty hands the step ends with [ERR_EMPTY_HANDS] and only
    the instruction counter moves.  With a value in the hands and the output
    count inside the output array, the value is stored at the count, the
    other elements are kept, the count and the program counter advance, and
    the hands and the bank are kept.  With a value in the hands and the
    count at or past the end of the array, the store is outside the array
    and the step is undefined. *)
Theorem outbox_step (st : VM) (i : HRMInstruction_t) :
  fetch pgm st = Some i -> inst i = OUTBOX ->
  (type (hands st) = EMPTY ->
     loop_body pgm mem_len st
     = Some (count_instruction (with_err ERR_EMPTY_HANDS st)))
  /\ (type (hands st) <> EMPTY ->
      0 <= out_fifo_num_vals st < Z.of_nat (length (out_fifo st)) ->
      Z.of_nat (length (out_fifo st)) <= 255 ->
      exists st',
        loop_body pgm mem_len st = Some st' /\
        err st' = err st /\ hands st' = hands st /\ mem st' = mem st /\
        arr_get (out_fifo st') (out_fifo_num_vals st) = Some (hands st) /\
        (forall b, b <> out_fifo_num_vals st ->
           arr_get (out_fifo st') b = arr_get (out_fifo st) b) /\
        length (out_fifo st') = length (out_fifo st) /\
        out_fifo_num_vals st' = out_fifo_num_vals st + 1 /\
        pgm_pc st' = to_u16 (pgm_pc st + 1))
  /\ (type (hands st) <> EMPTY ->
      ~ (0 <= out_fifo_num_vals st < Z.of_nat (length (out_fifo st))) ->
      loop_body pgm mem_len st = None).
Proof.
  intros Hf Hop. rewrite (loop_body_fetch pgm mem_len st i Hf), Hop.
  unfold case_OUTBOX, arr_set. split; [|split].
  - intros Ht. rewrite bool_decide_eq_true_2 by congruence. reflexivity.
  - intros Ht Hr Hmax. rewrite bool_decide_eq_false_2 by congruence.
    rewrite bool_decide_eq_true_2 by exact Hr. simpl.
    eexists. split; [reflexivity|]. simpl.
    split; [reflexivity|]. split; [reflexivity|]. split; [reflexivity|].
    split; [|split; [|split; [|split; [|reflexivity]]]].
    + unfold arr_get. rewrite bool_decide_eq_true_2 by lia.
      apply list_lookup_insert_eq. lia.
    + intros b Hne. unfold arr_get.
      destruct (bool_decide (0 <= b)) eqn:Hb0; [|reflexivity].
      apply bool_decide_eq_true in Hb0.
      apply list_lookup_insert_ne. lia.
    + apply length_insert.
    + unfold to_u8. apply Z.mod_small. lia.
  - intros Ht Hr. rewrite bool_decide_eq_false_2 by congruence.
    rewrite bool_decide_eq_false_2 by exact Hr. reflexivity.
Qed.

(** X8.  INBOX with the cursor inside the input array: the hands become the
    element under the cursor, the cursor and the program counter advance by
    one, the instruction is counted, and the bank, the output and the error
    are kept. *)
Theorem inbox_reads_next (st : VM) (i : HRMInstruction_t) :
  fetch pgm st = Some i -> inst i = INBOX ->
  0 <= in_fifo_val_idx st < NUM_INBOX_VALUES ->
  Z.of_nat (length (in_fifo st)) = NUM_INBOX_VALUES ->
  exists v st',
    arr_get (in_fifo st) (in_fifo_val_idx st) = Some v /\
    loop_body pgm mem_len st = Some st' /\
    hands st' = v /\
    in_fifo_val_idx st' = in_fifo_val_idx st + 1 /\
    inbox_empty st' = inbox_empty st /\
    err st' = err st /\ mem st' = mem st /\ out_fifo st' = out_fifo st /\
    out_fifo_num_vals st' = out_fifo_num_vals st /\
    pgm_pc st' = to_u16 (pgm_pc st + 1) /\
    pgm_num_instructions_executed st'
    = to_u16 (pgm_num_instructions_executed st + 1).
Proof.
  intros Hf Hop Hidx Hlen.
  destruct (arr_get_in_range (in_fifo st) (in_fifo_val_idx st)) as [v Hv];
    [lia|].
  exists v. rewrite (loop_body_fetch pgm mem_len st i Hf), Hop.
  unfold case_INBOX. rewrite bool_decide_eq_false_2 by lia. rewrite Hv.
  simpl. eexists. repeat split.
  unfold to_u8. apply Z.mod_small. unfold NUM_INBOX_VALUES in Hidx. lia.
Qed.

(** X9.  The errors a step can raise are those of its opcode's case: from a state
    without error, the error after the step is [ERR_NONE] or one of
    [may_raise].  In particular [ERR_EMPTY_HANDS] comes from OUTBOX only,
    INBOX and JUMP raise nothing, and the direct opcodes never give an
    indirect-address code. *)
Theorem step_error_taxonomy (st st' : VM) (i : HRMInstruction_t) :
  err st = ERR_NONE ->
  fetch pgm st = Some i ->
  loop_body pgm mem_len st = Some st' ->
  err st' = ERR_NONE \/ In (err st') (may_raise (inst i)).
Proof.
  intros He Hf. rewrite (loop_body_fetch pgm mem_len st i Hf).
  pose proof (verify_direct_addr_codes (param i) (mem st) mem_len) as Hd.
  pose proof (verify_indirect_addr_codes (param i) (mem st) mem_len) as Hi.
  simpl in Hd.
  destruct (inst i);
    unfold case_INBOX, case_OUTBOX,
           case_COPYFROM, case_COPYFROM_IND, case_COPYTO, case_COPYTO_IND,
           case_ADD, case_ADD_IND, case_SUB, case_SUB_IND,
           case_BUMP_PLUS, case_BUMP_PLUS_IND,
           case_BUMP_MINUS, case_BUMP_MINUS_IND,
           case_JUMP, case_JUMP_ZERO, case_JUMP_NEGATIVE;
    intros Hb; step_cases;
    try (specialize (Hi _ eq_refl); simpl in Hi);
    simpl; intuition congruence.
Qed.

End OtherCases.

(** ** Invariants of a run *)

Lemma arr_set_insert (a : list HRMVal_t) (i : Z) (x : HRMVal_t)
  (a' : list HRMVal_t) :
  arr_set a i x = Some a' ->
  0 <= i < Z.of_nat (length a) /\ a' = <[Z.to_nat i := x]> a.
Proof.
  unfold arr_set. case_bool_decide; [|discriminate].
  intros [= <-]. split; [assumption | reflexivity].
Qed.

Lemma arr_set_bank_ok (m : list HRMVal_t) (L i : Z) (x : HRMVal_t)
  (m' : list HRMVal_t) :
  bank_ok m L -> val_ok x -> arr_set m i x = Some m' -> bank_ok m' L.
Proof.
  intros [Hlen Hall] Hx Hset.
  destruct (arr_set_insert m i x m' Hset) as [_ ->]. split.
  - rewrite length_insert. exact Hlen.
  - apply Forall_insert; assumption.
Qed.

Lemma mem_ind_set_bank_ok (m : list HRMVal_t) (L : Z) (p x : HRMVal_t)
  (m' : list HRMVal_t) :
  bank_ok m L -> val_ok x -> mem_ind_set m p x = Some m' -> bank_ok m' L.
Proof.
  unfold mem_ind_set. intros Hb Hx Hset.
  destruct (arr_get m (val_n p)) as [c|]; [|discriminate].
  exact (arr_set_bank_ok m L (val_n c) x m' Hb Hx Hset).
Qed.

Lemma mem_ind_get_cell (m : list HRMVal_t) (L : Z) (p v : HRMVal_t) :
  bank_ok m L -> mem_ind_get m p = Some v -> val_ok v.
Proof.
  unfold mem_ind_get. intros Hb Hget.
  destruct (arr_get m (val_n p)) as [c|]; [|discriminate].
  exact (bank_ok_cell m L (val_n c) v Hb Hget).
Qed.

Lemma in_fifo_cell (a : list HRMVal_t) (i : Z) (v : HRMVal_t) :
  Forall val_ok a -> arr_get a i = Some v -> val_ok v.
Proof.
  intros Hall Hget. unfold arr_get in Hget.
  case_bool_decide; [|discriminate].
  exact (Forall_lookup_1 _ _ _ _ Hall Hget).
Qed.

Lemma to_u8_bounds (z : Z) : 0 <= to_u8 z < 256.
Proof. unfold to_u8. apply Z.mod_pos_bound. lia. Qed.

Lemma to_u8_id (z : Z) : 0 <= z < 256 -> to_u8 z = z.
Proof. intros H. unfold to_u8. apply Z.mod_small. exact H. Qed.

Lemma val_ok_to_i16 (z : Z) (v : HRMVal_t) :
  val_ok (set_val_n (to_i16 z) v).
Proof. apply to_i16_range. Qed.

Lemma val_ok_set_type (t : HRMValueType_t) (v : HRMVal_t) :
  val_ok v -> val_ok (set_type t v).
Proof. intros H. exact H. Qed.

Lemma bank_ok_val (m : list HRMVal_t) (L i : Z) (c : HRMVal_t) :
  bank_ok m L -> arr_get m i = Some c -> val_ok c.
Proof. apply bank_ok_cell. Qed.

Section RunInvariants.

Variable pgm : list HRMInstruction_t.
Variables pgm_len mem_len : Z.

Lemma loop_body_Some_fetch (st st' : VM) :
  loop_body pgm mem_len st = Some st' ->
  exists i, fetch pgm st = Some i /\ In i pgm.
Proof.
  unfold loop_body. destruct (fetch pgm st) as [i|] eqn:Hf; [|discriminate].
  intros _. exists i. split; [reflexivity|].
  unfold fetch in Hf. case_bool_decide; [|discriminate].
  apply list_elem_of_In. exact (list_elem_of_lookup_2 _ _ _ Hf).
Qed.

Lemma step_bank_ok (st st' : VM) :
  bank_ok (mem st) mem_len -> val_ok (hands st) ->
  loop_body pgm mem_len st = Some st' ->
  bank_ok (mem st') mem_len.
Proof.
  intros Hb Hh Hbody.
  destruct (loop_body_Some_fetch st st' Hbody) as (i & Hf & _).
  rewrite (loop_body_fetch pgm mem_len st i Hf) in Hbody.
  destruct (inst i); unfold_cases Hbody;
    repeat (case_bool_decide || simplify_option_eq); proj_simpl;
    eauto using arr_set_bank_ok, mem_ind_set_bank_ok, val_ok_to_i16.
Qed.

Lemma step_hands_ok (st st' : VM) :
  bank_ok (mem st) mem_len -> Forall val_ok (in_fifo st) ->
  val_ok (hands st) ->
  loop_body pgm mem_len st = Some st' ->
  val_ok (hands st').
Proof.
  intros Hb Hfifo Hh Hbody.
  destruct (loop_body_Some_fetch st st' Hbody) as (i & Hf & _).
  rewrite (loop_body_fetch pgm mem_len st i Hf) in Hbody.
  destruct (inst i); unfold_cases Hbody;
    repeat (case_bool_decide || simplify_option_eq); proj_simpl;
    eauto using bank_ok_val, mem_ind_get_cell, in_fifo_cell, val_ok_to_i16,
                val_ok_set_type.
Qed.

Lemma step_extends (st st' : VM) :
  vm_ok mem_len st ->
  loop_body pgm mem_len st = Some st' ->
  extends st st' /\ inbox_ok st' /\
  0 <= out_fifo_num_vals st' <= Z.of_nat (length (out_fifo st')) /\
  Z.of_nat (length (out_fifo st')) <= 255.
Proof.
  intros (Hb & [Hin Hidx] & Hfifo & Hh & Hout & Hmax) Hbody.
  assert (Hmem : length (mem st') = length (mem st)).
  { destruct (step_bank_ok st st' Hb Hh Hbody) as [Hlen' _].
    destruct Hb as [Hlen _]. lia. }
  destruct (loop_body_Some_fetch st st' Hbody) as (i & Hf & _).
  rewrite (loop_body_fetch pgm mem_len st i Hf) in Hbody.
  unfold extends, inbox_ok.
  destruct (inst i) eqn:Hop; unfold_cases Hbody.
  1: { (* INBOX *)
    repeat (case_bool_decide || simplify_option_eq); proj_simpl;
      rewrite ?to_u8_id by (unfold NUM_INBOX_VALUES in *; lia);
      repeat split; first [assumption | reflexivity | lia]. }
  1: { (* OUTBOX *)
    repeat (case_bool_decide || simplify_option_eq); proj_simpl;
      try (repeat split; first [assumption | reflexivity | lia]).
    match goal with
    | H : arr_set _ _ _ = Some _ |- _ =>
        destruct (arr_set_insert _ _ _ _ H) as [Hr ->]
    end.
    rewrite length_insert, to_u8_id by lia.
    repeat split; try first [assumption | reflexivity | lia].
    intros b Hb0. unfold arr_get. rewrite bool_decide_eq_true_2 by lia.
    apply list_lookup_insert_ne. lia. }
  all: repeat (case_bool_decide || simplify_option_eq); proj_simpl;
    repeat split; first [assumption | reflexivity | lia].
Qed.

(** A step on a well-formed state leaves a well-formed state. *)
Lemma loop_body_vm_ok (st st' : VM) :
  vm_ok mem_len st ->
  loop_body pgm mem_len st = Some st' ->
  vm_ok mem_len st'.
Proof.
  intros Hok Hbody.
  destruct (step_extends st st' Hok Hbody) as ([Hfifo _] & Hin & Hout & Hmax).
  destruct Hok as (Hb & _ & Hf & Hh & _).
  repeat split; try tauto.
  - exact (proj1 (step_bank_ok st st' Hb Hh Hbody)).
  - exact (proj2 (step_bank_ok st st' Hb Hh Hbody)).
  - exact (proj1 Hin).
  - exact (proj2 Hin).
  - rewrite Hfifo. exact Hf.
  - exact (proj1 (step_hands_ok st st' Hb Hf Hh Hbody)).
  - exact (proj2 (step_hands_ok st st' Hb Hf Hh Hbody)).
Qed.

Lemma extends_refl (st : VM) : extends st st.
Proof. unfold extends. repeat split; first [reflexivity | lia]. Qed.

Lemma extends_trans (s1 s2 s3 : VM) :
  extends s1 s2 -> extends s2 s3 -> extends s1 s3.
Proof.
  intros (A1 & A2 & A3 & A4 & A5 & A6) (B1 & B2 & B3 & B4 & B5 & B6).
  unfold extends. repeat split; try congruence; try lia.
  intros b Hb. rewrite B6 by lia. apply A6. exact Hb.
Qed.

(** X10.  Whatever the program, a run that starts from a well-formed state and
    returns ends in a well-formed state: the bank has kept its length and
    its cells hold [int16_t] values, the input array is as it was, neither
    cursor has moved back, the output count is within the output array, and
    every output element below the count at the start is as it was. *)
Theorem run_keeps_state_well_formed (fuel : nat) (st st' : VM) :
  vm_ok mem_len st ->
  execute_loop fuel pgm pgm_len mem_len st = Returned st' ->
  vm_ok mem_len st' /\ extends st st'.
Proof.
  revert st. induction fuel as [|fuel IH]; intros st Hok Hrun.
  - simpl in Hrun. destruct (loop_cond pgm_len st); [discriminate|].
    injection Hrun as <-. split; [exact Hok | apply extends_refl].
  - simpl in Hrun. destruct (loop_cond pgm_len st).
    + destruct (loop_body pgm mem_len st) as [st1|] eqn:Hbody;
        [|discriminate].
      destruct (IH st1 (loop_body_vm_ok st st1 Hok Hbody) Hrun) as [Hok' Hext].
      split; [exact Hok'|].
      apply (extends_trans st st1 st'); [|exact Hext].
      exact (proj1 (step_extends st st1 Hok Hbody)).
    + injection Hrun as <-. split; [exact Hok | apply extends_refl].
Qed.

End RunInvariants.

(** ** Accesses stay inside the arrays *)

Lemma pgm_ok_param (pgm : list HRMInstruction_t) (st : VM)
  (i : HRMInstruction_t) :
  pgm_ok pgm -> fetch pgm st = Some i -> val_ok (param i).
Proof.
  intros Hall Hf. unfold fetch in Hf. case_bool_decide; [|discriminate].
  exact (Forall_lookup_1 _ _ _ _ Hall Hf).
Qed.

Lemma arr_set_in_range (a : list HRMVal_t) (i : Z) (x : HRMVal_t) :
  0 <= i < Z.of_nat (length a) -> is_Some (arr_set a i x).
Proof.
  intros H. unfold arr_set. rewrite bool_decide_eq_true_2 by exact H.
  eexists; reflexivity.
Qed.

Section Safety.

Variable pgm : list HRMInstruction_t.
Variables pgm_len mem_len : Z.

(** The cases that store into the bank make no access outside it. *)
Lemma stores_defined (st : VM) (i : HRMInstruction_t) :
  uint8_range mem_len -> bank_ok (mem st) mem_len -> val_ok (param i) ->
  fetch pgm st = Some i ->
  addressed (inst i) = true -> loads_hands (inst i) = false ->
  is_Some (loop_body pgm mem_len st).
Proof.
  intros HL Hb Hp Hf Hop Hnl.
  rewrite (loop_body_fetch pgm mem_len st i Hf).
  pose proof (verify_addr_ok (inst i) (param i) (mem st) mem_len Hp HL Hb)
    as Hok.
  destruct (verify_addr_defined (inst i) (param i) (mem st) mem_len Hp HL Hb)
    as [e He].
  unfold verify_addr in Hok, He.
  destruct (inst i); try discriminate Hop; try discriminate Hnl;
    simpl in Hok, He;
    unfold case_COPYTO, case_COPYTO_IND,
           case_BUMP_PLUS, case_BUMP_PLUS_IND,
           case_BUMP_MINUS, case_BUMP_MINUS_IND, mem_ind_set;
    try (injection He as He); rewrite ?He in *; cbn -[to_i16];
    (destruct (decide (ERR_NONE = e)) as [<- | Hne];
     [ rewrite (bool_decide_eq_true_2 (ERR_NONE = ERR_NONE)) by reflexivity
     | rewrite (bool_decide_eq_false_2 (ERR_NONE = e)) by exact Hne;
       eexists; reflexivity ]);
    destruct (Hok eq_refl) as (a & v & _ & _ & Hget & Hdir & Hind);
    pose proof (arr_get_Some_range _ _ _ Hget) as Hr;
    first [ destruct (Hdir eq_refl) as [-> _]
          | destruct (Hind eq_refl) as (_ & Hmg & c & Hc & <-);
            rewrite ?Hmg, ?Hc ];
    rewrite ?Hget; cbn -[to_i16];
    repeat case_bool_decide; try (eexists; reflexivity);
    match goal with
    | |- is_Some (arr_set ?m ?a ?x ≫= _) =>
        destruct (arr_set_in_range m a x Hr) as [m' Hm']; rewrite Hm';
        eexists; reflexivity
    end.
Qed.

Lemma step_defined (st : VM) (i : HRMInstruction_t) :
  pgm_ok pgm -> uint8_range mem_len -> vm_ok mem_len st ->
  fetch pgm st = Some i ->
  (inst i = OUTBOX -> type (hands st) <> EMPTY ->
   out_fifo_num_vals st < Z.of_nat (length (out_fifo st))) ->
  is_Some (loop_body pgm mem_len st).
Proof.
  intros Hpgm HL (Hb & Hin & _ & _ & Hout & _) Hf Hroom.
  pose proof (pgm_ok_param pgm st i Hpgm Hf) as Hp.
  destruct (loads_hands (inst i)) eqn:Hl.
  { exact (loads_hands_defined pgm mem_len st i HL Hb Hin Hp Hf Hl). }
  destruct (addressed (inst i)) eqn:Ha.
  { exact (stores_defined st i HL Hb Hp Hf Ha Hl). }
  rewrite (loop_body_fetch pgm mem_len st i Hf).
  destruct (inst i) eqn:Hop; try discriminate Hl; try discriminate Ha;
    try (eexists; reflexivity).
  unfold case_OUTBOX. case_bool_decide as He; [eexists; reflexivity|].
  destruct (arr_set_in_range (out_fifo st) (out_fifo_num_vals st) (hands st))
    as [o Ho].
  { specialize (Hroom eq_refl ltac:(congruence)). lia. }
  rewrite Ho. eexists; reflexivity.
Qed.

Lemma step_pc_nonneg (st st' : VM) :
  0 <= pgm_pc st ->
  loop_body pgm mem_len st = Some st' ->
  0 <= pgm_pc st'.
Proof.
  intros Hpc Hbody.
  destruct (loop_body_Some_fetch pgm mem_len st st' Hbody) as (i & Hf & _).
  rewrite (loop_body_fetch pgm mem_len st i Hf) in Hbody.
  assert (Hu : forall z, 0 <= to_u16 z)
    by (intros z; unfold to_u16; apply Z.mod_pos_bound; lia).
  destruct (inst i); unfold_cases Hbody; unfold jump_target in Hbody;
    repeat (case_bool_decide || simplify_option_eq); proj_simpl;
    first [exact Hpc | apply Hu].
Qed.

(** X11.  Memory safety of a step.  On a well-formed state, with a program whose
    parameters are [int16_t] values, the only step that can access an array
    outside its bounds is an OUTBOX with a value in the hands and the output
    array full: the validators keep every access to the bank inside it. *)
Theorem step_defined_unless_output_full (st : VM) (i : HRMInstruction_t) :
  pgm_ok pgm -> uint8_range mem_len -> vm_ok mem_len st ->
  fetch pgm st = Some i ->
  (inst i = OUTBOX -> type (hands st) <> EMPTY ->
   out_fifo_num_vals st < Z.of_nat (length (out_fifo st))) ->
  is_Some (loop_body pgm mem_len st).
Proof. apply step_defined. Qed.

(** X12.  A program without OUTBOX, whose length is the [pgm_len] that [execute]
    is given, never makes an access outside an array, whatever it does and
    however long it runs: no run from a well-formed state is undefined. *)
Theorem run_without_outbox_is_defined (fuel : nat) (st : VM) :
  pgm_ok pgm -> uint8_range mem_len ->
  Z.of_nat (length pgm) = pgm_len -> 1 <= pgm_len <= 255 ->
  Forall (fun i => inst i <> OUTBOX) pgm ->
  vm_ok mem_len st -> 0 <= pgm_pc st ->
  execute_loop fuel pgm pgm_len mem_len st <> Undefined.
Proof.
  intros Hpgm HL Hlen Hpl Hno. revert st.
  induction fuel as [|fuel IH]; intros st Hok Hpc; simpl.
  - destruct (loop_cond pgm_len st); discriminate.
  - destruct (loop_cond pgm_len st) eqn:Hc; [|discriminate].
    destruct (loop_cond_true pgm_len st Hc) as (_ & _ & Hle & _).
    rewrite to_u16_id in Hle by lia.
    destruct (lookup_lt_is_Some_2 pgm (Z.to_nat (pgm_pc st)) ltac:(lia))
      as [i Hi].
    assert (Hf : fetch pgm st = Some i).
    { unfold fetch. rewrite bool_decide_eq_true_2 by exact Hpc. exact Hi. }
    assert (Hnot : inst i <> OUTBOX)
      by exact (Forall_lookup_1 _ _ _ _ Hno Hi).
    destruct (step_defined st i Hpgm HL Hok Hf ltac:(congruence))
      as [st1 Hbody].
    rewrite Hbody. apply IH.
    + exact (loop_body_vm_ok pgm mem_len st st1 Hok Hbody).
    + exact (step_pc_nonneg st st1 Hpc Hbody).
Qed.

End Safety.

(** ** The instruction budget *)

Section Budget.

Variable pgm : list HRMInstruction_t.
Variables pgm_len mem_len : Z.

Lemma loop_cond_budget (st : VM) :
  pgm_num_instructions_executed st > MAX_INSTRUCTIONS_ALLOWED ->
  loop_cond pgm_len st = false.
Proof.
  intros H. unfold loop_cond.
  rewrite (bool_decide_eq_false_2
             (pgm_num_instructions_executed st <= MAX_INSTRUCTIONS_ALLOWED))
    by lia.
  apply andb_false_r.
Qed.

(** A step leaves the instruction counter as it is or adds one to it; the
    cases of INBOX, OUTBOX and the jumps add one. *)
Lemma step_counter (st st' : VM) (i : HRMInstruction_t) :
  fetch pgm st = Some i ->
  loop_body pgm mem_len st = Some st' ->
  pgm_num_instructions_executed st'
  = (if addressed (inst i) then pgm_num_instructions_executed st
     else to_u16 (pgm_num_instructions_executed st + 1)).
Proof.
  intros Hf Hbody.
  rewrite (loop_body_fetch pgm mem_len st i Hf) in Hbody.
  destruct (inst i); unfold_cases Hbody;
    repeat (case_bool_decide || simplify_option_eq); reflexivity.
Qed.

(** X13.  The instruction counter of a run that returns is at most one more than
    [MAX_INSTRUCTIONS_ALLOWED]: the loop is entered with the counter at
    1000 at the latest, and an iteration adds at most one. *)
Theorem instruction_count_bounded (fuel : nat) (st st' : VM) :
  0 <= pgm_num_instructions_executed st <= MAX_INSTRUCTIONS_ALLOWED + 1 ->
  execute_loop fuel pgm pgm_len mem_len st = Returned st' ->
  pgm_num_instructions_executed st
  <= pgm_num_instructions_executed st' <= MAX_INSTRUCTIONS_ALLOWED + 1.
Proof.
  revert st. induction fuel as [|fuel IH]; intros st Hn Hrun; simpl in Hrun.
  - destruct (loop_cond pgm_len st); [discriminate|].
    injection Hrun as <-. lia.
  - destruct (loop_cond pgm_len st) eqn:Hc;
      [|injection Hrun as <-; lia].
    destruct (loop_cond_true pgm_len st Hc) as (_ & _ & _ & Hle).
    destruct (loop_body pgm mem_len st) as [st1|] eqn:Hbody; [|discriminate].
    destruct (loop_body_Some_fetch pgm mem_len st st1 Hbody) as (i & Hf & _).
    pose proof (step_counter st st1 i Hf Hbody) as Hcnt.
    unfold MAX_INSTRUCTIONS_ALLOWED in *.
    assert (Hstep : pgm_num_instructions_executed st
                    <= pgm_num_instructions_executed st1 <= 1001).
    { destruct (addressed (inst i)); rewrite Hcnt;
        rewrite ?to_u16_id by lia; lia. }
    specialize (IH st1 ltac:(lia) Hrun). lia.
Qed.

(** X14.  A program made of INBOX, OUTBOX and the jumps only cannot run for
    ever: from a counter [n], within [1001 - n] iterations the run has
    returned or has made an access outside an array. *)
Theorem unaddressed_program_terminates (fuel : nat) (st : VM) :
  unaddressed_pgm pgm ->
  0 <= pgm_num_instructions_executed st ->
  (Z.to_nat (MAX_INSTRUCTIONS_ALLOWED + 1 - pgm_num_instructions_executed st)
   <= fuel)%nat ->
  execute_loop fuel pgm pgm_len mem_len st <> OutOfFuel.
Proof.
  intros Hun. revert st.
  induction fuel as [|fuel IH]; intros st Hn Hfuel; simpl.
  - rewrite loop_cond_budget; [discriminate|].
    unfold MAX_INSTRUCTIONS_ALLOWED in *. lia.
  - destruct (loop_cond pgm_len st) eqn:Hc; [|discriminate].
    destruct (loop_cond_true pgm_len st Hc) as (_ & _ & _ & Hle).
    destruct (loop_body pgm mem_len st) as [st1|] eqn:Hbody; [|discriminate].
    destruct (loop_body_Some_fetch pgm mem_len st st1 Hbody) as (i & Hf & Hi).
    pose proof (step_counter st st1 i Hf Hbody) as Hcnt.
    unfold unaddressed_pgm in Hun. rewrite Forall_forall in Hun.
    rewrite (Hun i) in Hcnt by (apply list_elem_of_In; exact Hi).
    unfold MAX_INSTRUCTIONS_ALLOWED in *.
    rewrite to_u16_id in Hcnt by lia.
    apply IH; lia.
Qed.

End Budget.

(** ** How runs end, and when they do not *)

Section Endings.

Variable pgm : list HRMInstruction_t.
Variables pgm_len mem_len : Z.

(** A state the loop body maps to itself while the loop condition holds is
    never left. *)
Lemma fixed_state_spins (fuel : nat) (st : VM) :
  loop_cond pgm_len st = true ->
  loop_body pgm mem_len st = Some st ->
  execute_loop fuel pgm pgm_len mem_len st = OutOfFuel.
Proof.
  intros Hc Hb. induction fuel as [|fuel IH]; simpl; rewrite Hc.
  - reflexivity.
  - rewrite Hb. exact IH.
Qed.

Lemma loop_cond_intro (st : VM) :
  inbox_empty st = 0 -> err st = ERR_NONE ->
  pgm_pc st <= to_u16 (pgm_len - 1) ->
  pgm_num_instructions_executed st <= MAX_INSTRUCTIONS_ALLOWED ->
  loop_cond pgm_len st = true.
Proof.
  intros H1 H2 H3 H4. unfold loop_cond.
  rewrite !bool_decide_eq_true_2 by first [assumption | congruence].
  reflexivity.
Qed.

(** X15.  A COPYFROM or COPYFROM_IND that succeeds is the last instruction the
    run gets to: the iteration leaves the program counter and the
    instruction counter as they were, the next iterations repeat it with
    the same result, and [execute] never returns. *)
Theorem copyfrom_success_diverges
  (fuel : nat) (st st' : VM) (i : HRMInstruction_t) :
  loop_cond pgm_len st = true ->
  fetch pgm st = Some i ->
  inst i = COPYFROM \/ inst i = COPYFROM_IND ->
  loop_body pgm mem_len st = Some st' ->
  err st' = ERR_NONE ->
  execute_loop fuel pgm pgm_len mem_len st = OutOfFuel.
Proof.
  intros Hc Hf Hop Hbody Herr.
  destruct (loop_cond_true pgm_len st Hc) as (C1 & C2 & C3 & C4).
  assert (Hspin : loop_cond pgm_len st' = true /\
                  loop_body pgm mem_len st' = Some st').
  { pose proof Hbody as Hb.
    rewrite (loop_body_fetch pgm mem_len st i Hf) in Hb.
    destruct Hop as [Hop | Hop]; rewrite Hop in Hb;
      unfold case_COPYFROM, case_COPYFROM_IND in Hb;
      repeat (case_bool_decide || simplify_option_eq);
      proj_simpl; try congruence.
    - split; [apply loop_cond_intro; proj_simpl; assumption|].
      match goal with
      | |- loop_body _ _ ?s = _ =>
          assert (Hf' : fetch pgm s = Some i) by exact Hf;
          rewrite (loop_body_fetch pgm mem_len s i Hf'), Hop
      end.
      unfold case_COPYFROM. proj_simpl. rewrite Herr. proj_simpl.
      rewrite (bool_decide_eq_true_2 (ERR_NONE = ERR_NONE)) by reflexivity.
      match goal with H : arr_get _ _ = Some _ |- _ => rewrite H end.
      simpl. rewrite bool_decide_eq_false_2 by assumption. reflexivity.
    - split; [apply loop_cond_intro; proj_simpl; first [assumption | reflexivity]|].
      match goal with
      | |- loop_body _ _ ?s = _ =>
          assert (Hf' : fetch pgm s = Some i) by exact Hf;
          rewrite (loop_body_fetch pgm mem_len s i Hf'), Hop
      end.
      unfold case_COPYFROM_IND. proj_simpl.
      match goal with H : verify_indirect_addr _ _ _ = Some _ |- _ =>
        rewrite H end.
      simpl.
      match goal with H : mem_ind_get _ _ = Some _ |- _ => rewrite H end.
      simpl. rewrite bool_decide_eq_false_2 by assumption. reflexivity. }
  destruct Hspin as [Hc' Hb'].
  destruct fuel as [|fuel]; simpl; rewrite Hc; [reflexivity|].
  rewrite Hbody. exact (fixed_state_spins fuel st' Hc' Hb').
Qed.

(** X16.  A JUMP whose parameter is not the 1-based index of an instruction of
    the program (it is 0 or less, or more than [pgm_len]) is not an error:
    the run ends with that iteration and [execute] returns [ERR_NONE], with
    the hands, the bank and the output as the iteration found them. *)
Theorem jump_outside_program_ends_run
  (fuel : nat) (st : VM) (i : HRMInstruction_t) :
  1 <= pgm_len <= 255 ->
  loop_cond pgm_len st = true ->
  fetch pgm st = Some i -> inst i = JUMP ->
  val_ok (param i) ->
  val_n (param i) <= 0 \/ val_n (param i) > pgm_len ->
  exists st',
    execute_loop (S fuel) pgm pgm_len mem_len st = Returned st' /\
    err st' = ERR_NONE /\ inbox_empty st' = 0 /\
    pgm_pc st' > pgm_len - 1 /\
    hands st' = hands st /\ mem st' = mem st /\
    out_fifo st' = out_fifo st /\
    out_fifo_num_vals st' = out_fifo_num_vals st.
Proof.
  intros Hlen Hc Hf Hop Hp Hout.
  destruct (loop_cond_true pgm_len st Hc) as (Hie & He & _ & _).
  assert (Hb : loop_body pgm mem_len st
               = Some (count_instruction (with_pc (jump_target (param i)) st))).
  { rewrite (loop_body_fetch pgm mem_len st i Hf), Hop. reflexivity. }
  assert (Hpc : jump_target (param i) > pgm_len - 1).
  { unfold jump_target, val_ok, int16_range in *.
    destruct Hout as [Hneg | Hbig].
    - rewrite to_u16_neg by lia. lia.
    - rewrite to_u16_id by lia. lia. }
  eexists. split.
  - rewrite (execute_loop_step pgm pgm_len mem_len fuel st _ Hc Hb).
    apply execute_loop_stop. unfold loop_cond. proj_simpl.
    rewrite (to_u16_id (pgm_len - 1)) by lia.
    rewrite (bool_decide_eq_false_2 (jump_target (param i) <= pgm_len - 1))
      by lia.
    rewrite andb_false_r. reflexivity.
  - proj_simpl. repeat split; first [congruence | lia].
Qed.

(** X17.  The first error ends the run, at the instruction that raised it: when
    an iteration of the running loop leaves an error, [execute] returns
    with that error after this iteration, and the program counter, the
    bank, the output array and its count, and the input cursor are as the
    iteration found them. *)
Theorem error_ends_run_at_failing_instruction
  (fuel : nat) (st st' : VM) :
  loop_cond pgm_len st = true ->
  loop_body pgm mem_len st = Some st' ->
  err st' <> ERR_NONE ->
  execute_loop (S fuel) pgm pgm_len mem_len st = Returned st' /\
  returned_err (Returned st') = Some (err st') /\
  pgm_pc st' = pgm_pc st /\
  mem st' = mem st /\
  out_fifo st' = out_fifo st /\
  out_fifo_num_vals st' = out_fifo_num_vals st /\
  in_fifo_val_idx st' = in_fifo_val_idx st /\
  inbox_empty st' = inbox_empty st.
Proof.
  intros Hc Hbody Herr.
  split; [exact (execute_loop_error pgm pgm_len mem_len fuel st st' Hc Hbody Herr)|].
  split; [reflexivity|].
  destruct (loop_cond_true pgm_len st Hc) as (_ & He & _ & _).
  destruct (loop_body_Some_fetch pgm mem_len st st' Hbody) as (i & Hf & _).
  rewrite (loop_body_fetch pgm mem_len st i Hf) in Hbody.
  destruct (inst i); unfold_cases Hbody;
    repeat (case_bool_decide || simplify_option_eq); proj_simpl;
    first [congruence | repeat split; reflexivity].
Qed.

End Endings.

Section BumpPlusLoop.

Variable pgm : list HRMInstruction_t.
Variables pgm_len mem_len : Z.

Lemma case_BUMP_PLUS_num (p : HRMVal_t) (st : VM) (c : Z) :
  verify_direct_addr p (mem st) mem_len = ERR_NONE ->
  arr_get (mem st) (val_n p) = Some (Num c) ->
  int16_range (c + 1) ->
  case_BUMP_PLUS p mem_len st =
    if bool_decide (c + 1 > 999)
    then Some (with_err ERR_OVERFLOW (with_err ERR_NONE st))
    else Some (with_hands (Num (c + 1))
                 (with_mem (<[Z.to_nat (val_n p) := Num (c + 1)]> (mem st))
                           (with_err ERR_NONE st))).
Proof.
  intros Hv Hget Hr. unfold case_BUMP_PLUS. rewrite Hv. proj_simpl.
  rewrite (bool_decide_eq_true_2 (ERR_NONE = ERR_NONE)) by reflexivity.
  rewrite Hget. cbn -[to_i16].
  rewrite (bool_decide_eq_false_2 (NUM <> NUM)) by congruence.
  rewrite (to_i16_id (c + 1) Hr).
  case_bool_decide; [reflexivity|].
  unfold arr_set.
  rewrite bool_decide_eq_true_2
    by exact (arr_get_Some_range _ _ _ Hget).
  reflexivity.
Qed.

(** X18.  A BUMP_PLUS on a valid address and a cell that holds a number up to 999
    never hands over to the next instruction: the iteration is repeated,
    each time adding one to the cell, until the cell holds 999, and the run
    then returns [ERR_OVERFLOW], with the program counter and the
    instruction counter where the first iteration found them. *)
Theorem bump_plus_runs_to_overflow
  (st : VM) (i : HRMInstruction_t) (c : Z) :
  loop_cond pgm_len st = true ->
  fetch pgm st = Some i -> inst i = BUMP_PLUS ->
  verify_direct_addr (param i) (mem st) mem_len = ERR_NONE ->
  arr_get (mem st) (val_n (param i)) = Some (Num c) ->
  -32768 <= c <= 999 ->
  exists st',
    execute_loop (Z.to_nat (1000 - c)) pgm pgm_len mem_len st
    = Returned st' /\
    err st' = ERR_OVERFLOW /\
    arr_get (mem st') (val_n (param i)) = Some (Num 999) /\
    pgm_pc st' = pgm_pc st /\
    pgm_num_instructions_executed st' = pgm_num_instructions_executed st.
Proof.
  intros Hc Hf Hop Hv Hget Hr.
  remember (Z.to_nat (999 - c)) as n eqn:Hn.
  revert st c Hc Hf Hv Hget Hr Hn.
  induction n as [|n IH]; intros st c Hc Hf Hv Hget Hr Hn.
  - assert (c = 999) by lia. subst c.
    change (Z.to_nat (1000 - 999)) with 1%nat.
    assert (Hb : loop_body pgm mem_len st
                 = Some (with_err ERR_OVERFLOW (with_err ERR_NONE st))).
    { rewrite (loop_body_fetch pgm mem_len st i Hf), Hop.
      rewrite (case_BUMP_PLUS_num (param i) st 999 Hv Hget)
        by (unfold int16_range; lia).
      reflexivity. }
    eexists. split.
    + apply (execute_loop_error pgm pgm_len mem_len 0 st _ Hc Hb).
      discriminate.
    + proj_simpl. repeat split; first [reflexivity | exact Hget].
  - destruct (loop_cond_true pgm_len st Hc) as (C1 & C2 & C3 & C4).
    pose proof (arr_get_Some_range _ _ _ Hget) as Hidx.
    replace (Z.to_nat (1000 - c)) with (S (Z.to_nat (1000 - (c + 1))))
      by lia.
    set (st1 := with_hands (Num (c + 1))
                  (with_mem (<[Z.to_nat (val_n (param i)) := Num (c + 1)]>
                               (mem st))
                            (with_err ERR_NONE st))).
    assert (Hb : loop_body pgm mem_len st = Some st1).
    { rewrite (loop_body_fetch pgm mem_len st i Hf), Hop.
      rewrite (case_BUMP_PLUS_num (param i) st c Hv Hget)
        by (unfold int16_range; lia).
      rewrite bool_decide_eq_false_2 by lia. reflexivity. }
    rewrite (execute_loop_step pgm pgm_len mem_len _ st st1 Hc Hb).
    destruct (IH st1 (c + 1)) as (st' & Hrun & He & Hcell & Hpc & Hcnt).
    + apply loop_cond_intro; subst st1; proj_simpl;
        first [assumption | reflexivity].
    + exact Hf.
    + exact Hv.
    + subst st1. proj_simpl. unfold arr_get.
      rewrite bool_decide_eq_true_2 by lia.
      apply list_lookup_insert_eq. lia.
    + lia.
    + lia.
    + exists st'. split; [exact Hrun|]. split; [exact He|].
      split; [exact Hcell|]. split; [exact Hpc | exact Hcnt].
Qed.

End BumpPlusLoop.

(** ** The statements above at concrete states *)

Lemma val_ok_small (t : HRMValueType_t) (n : Z) :
  -32768 <= n <= 32767 -> val_ok {| type := t; val_n := n |}.
Proof. intros H. exact H. Qed.

Lemma in_fifo_init_ok : Forall val_ok in_fifo_init.
Proof.
  repeat (apply List.Forall_cons; [apply val_ok_small; lia|]). apply List.Forall_nil.
Qed.

Lemma entry_room1_vm_ok (cell : HRMVal_t) :
  val_ok cell -> vm_ok 1 (entry_room1 cell in_fifo_init).
Proof.
  intros Hc.
  refine (conj (conj eq_refl _) (conj (conj eq_refl _)
            (conj in_fifo_init_ok (conj _ (conj _ _))))); simpl.
  - apply List.Forall_cons; [exact Hc | apply List.Forall_nil].
  - lia.
  - apply val_ok_small. lia.
  - lia.
  - lia.
Qed.

Lemma main_entry_vm_ok : vm_ok 9 main_entry.
Proof.
  refine (conj (conj eq_refl _) (conj (conj eq_refl _)
            (conj in_fifo_init_ok (conj _ (conj _ _))))); simpl.
  - repeat (apply List.Forall_cons; [apply val_ok_small; lia|]).
    apply List.Forall_nil.
  - lia.
  - apply val_ok_small. lia.
  - lia.
  - lia.
Qed.

Lemma uint8_range_small (n : Z) : 0 <= n <= 255 -> uint8_range n.
Proof. intros H. exact H. Qed.

Lemma arith_hands_checked_first_witness :
  loop_body pgm_inbox_add 1 (with_pc 1 (entry_room1 (Num 1) in_fifo_init))
  = Some (with_err ERR_BAD_ADDEND_TYPE_IN_HANDS
            (with_pc 1 (entry_room1 (Num 1) in_fifo_init))).
Proof.
  exact (arith_hands_checked_first pgm_inbox_add 1
           (with_pc 1 (entry_room1 (Num 1) in_fifo_init))
           (instr ADD (Num 0)) eq_refl eq_refl ltac:(discriminate)).
Defined.

Lemma address_error_reported_witness :
  loop_body pgm_copyfrom_far 1 (entry_room1 (Num 1) in_fifo_init)
  = Some (with_err ERR_DIRECT_ADDR_OUT_OF_RANGE
            (entry_room1 (Num 1) in_fifo_init)).
Proof.
  exact (address_error_reported pgm_copyfrom_far 1
           (entry_room1 (Num 1) in_fifo_init) (instr COPYFROM (Num 5))
           ERR_DIRECT_ADDR_OUT_OF_RANGE eq_refl eq_refl
           ltac:(discriminate) eq_refl ltac:(discriminate)).
Defined.

Lemma copyfrom_step_witness :
  exists st',
    loop_body pgm_copyfrom 1 (entry_room1 (Num 1) in_fifo_init) = Some st' /\
    err st' = ERR_NONE /\ hands st' = Num 1.
Proof.
  destruct (copyfrom_step pgm_copyfrom 1 (entry_room1 (Num 1) in_fifo_init)
              (instr COPYFROM (Num 0))
              (uint8_range_small 1 ltac:(lia))
              (proj1 (entry_room1_vm_ok (Num 1) (val_ok_small NUM 1 ltac:(lia))))
              (val_ok_small NUM 0 ltac:(lia))
              eq_refl (or_introl eq_refl) eq_refl)
    as (a & v & st' & Ha & _ & Hget & Hbody & _ & _ & Hfull).
  injection Ha as <-. injection Hget as <-.
  exists st'. split; [exact Hbody|]. apply Hfull. discriminate.
Defined.

Lemma copyto_step_witness :
  exists st',
    loop_body pgm_copyto 1 (entry_room1 (Num 5) in_fifo_init) = Some st' /\
    arr_get (mem st') 0 = Some hands_init /\
    hands st' = set_type EMPTY hands_init.
Proof.
  destruct (copyto_step pgm_copyto 1 (entry_room1 (Num 5) in_fifo_init)
              (instr COPYTO (Num 0))
              (uint8_range_small 1 ltac:(lia))
              (proj1 (entry_room1_vm_ok (Num 5) (val_ok_small NUM 5 ltac:(lia))))
              (val_ok_small NUM 0 ltac:(lia))
              eq_refl (or_introl eq_refl) eq_refl)
    as (a & st' & Ha & _ & Hbody & _ & Hcell & _ & _ & Hh).
  injection Ha as <-.
  exists st'. split; [exact Hbody|]. split; [exact Hcell | exact Hh].
Defined.

Lemma operand_cell_must_be_number_witness :
  loop_body pgm_bump_minus 1 (entry_room1 zero_val in_fifo_init)
  = Some (with_err ERR_BAD_TYPE_FOR_BUMP_IN_MEMORY
            (entry_room1 zero_val in_fifo_init)).
Proof.
  destruct (operand_cell_must_be_number pgm_bump_minus 1
              (entry_room1 zero_val in_fifo_init) (instr BUMP_MINUS (Num 0))
              (uint8_range_small 1 ltac:(lia))
              (proj1 (entry_room1_vm_ok zero_val
                        (val_ok_small EMPTY 0 ltac:(lia))))
              (val_ok_small NUM 0 ltac:(lia))
              eq_refl eq_refl
              ltac:(discriminate) ltac:(discriminate)
              ltac:(discriminate) ltac:(discriminate)
              ltac:(discriminate) eq_refl)
    as (a & v & Ha & Hget & Hbad).
  injection Ha as <-. injection Hget as <-.
  apply Hbad. discriminate.
Defined.

Lemma bump_plus_step_witness :
  exists st',
    loop_body pgm_bump_plus 1 (entry_room1 (Num 5) in_fifo_init) = Some st' /\
    hands st' = Num 6 /\ arr_get (mem st') 0 = Some (Num 6).
Proof.
  destruct (bump_plus_step pgm_bump_plus 1 (entry_room1 (Num 5) in_fifo_init)
              (instr BUMP_PLUS (Num 0))
              (uint8_range_small 1 ltac:(lia))
              (proj1 (entry_room1_vm_ok (Num 5) (val_ok_small NUM 5 ltac:(lia))))
              (val_ok_small NUM 0 ltac:(lia))
              eq_refl (or_introl eq_refl) eq_refl)
    as (a & v & Ha & Hget & Hnum).
  injection Ha as <-. injection Hget as <-.
  destruct (Hnum eq_refl ltac:(simpl; lia)) as [_ Hok].
  destruct (Hok ltac:(simpl; lia)) as (st' & Hbody & _ & Hh & Hcell & _).
  exists st'. split; [exact Hbody|]. split; [exact Hh | exact Hcell].
Defined.

Lemma outbox_step_witness :
  loop_body pgm_zero_preservation_initiative 9 (with_pc 3 main_entry)
  = Some (count_instruction (with_err ERR_EMPTY_HANDS (with_pc 3 main_entry)))
  /\ loop_body pgm_zero_preservation_initiative 9
       (with_out_num 8 (with_hands (Num 0) (with_pc 3 main_entry)))
     = None.
Proof.
  split.
  - apply (proj1 (outbox_step pgm_zero_preservation_initiative 9
                    (with_pc 3 main_entry) (instr OUTBOX zero_val)
                    eq_refl eq_refl)).
    reflexivity.
  - apply (proj2 (proj2 (outbox_step pgm_zero_preservation_initiative 9
                    (with_out_num 8 (with_hands (Num 0) (with_pc 3 main_entry)))
                    (instr OUTBOX zero_val) eq_refl eq_refl))).
    + discriminate.
    + simpl. lia.
Defined.

Lemma inbox_reads_next_witness :
  exists st',
    loop_body pgm_zero_preservation_initiative 9 main_entry = Some st' /\
    hands st' = Num 7 /\ in_fifo_val_idx st' = 1.
Proof.
  destruct (inbox_reads_next pgm_zero_preservation_initiative 9 main_entry
              (instr INBOX zero_val) eq_refl eq_refl
              ltac:(simpl; unfold NUM_INBOX_VALUES; lia) eq_refl)
    as (v & st' & Hget & Hbody & Hh & Hidx & _).
  injection Hget as <-.
  exists st'. split; [exact Hbody|]. split; [exact Hh | exact Hidx].
Defined.

Lemma step_error_taxonomy_witness :
  ERR_EMPTY_HANDS = ERR_NONE \/ In ERR_EMPTY_HANDS (may_raise OUTBOX).
Proof.
  exact (step_error_taxonomy pgm_zero_preservation_initiative 9
           (with_pc 3 main_entry)
           (count_instruction (with_err ERR_EMPTY_HANDS (with_pc 3 main_entry)))
           (instr OUTBOX zero_val) eq_refl eq_refl eq_refl).
Defined.

Lemma pgm_ok_one (op : HRMInstructionType_t) (t : HRMValueType_t) (n : Z) :
  -32768 <= n <= 32767 -> pgm_ok [instr op {| type := t; val_n := n |}].
Proof.
  intros H. apply List.Forall_cons; [exact H | apply List.Forall_nil].
Qed.

Lemma run_keeps_state_well_formed_witness :
  exists st',
    main_run 30 = Returned st' /\ vm_ok 9 st' /\ extends main_entry st'.
Proof.
  eexists. split; [vm_compute; reflexivity|].
  apply (run_keeps_state_well_formed pgm_zero_preservation_initiative 5 9
           30 main_entry _ main_entry_vm_ok).
  vm_compute. reflexivity.
Defined.

Lemma step_defined_unless_output_full_witness :
  is_Some (loop_body pgm_copyto 1 (entry_room1 (Num 5) in_fifo_init)).
Proof.
  apply (step_defined_unless_output_full pgm_copyto 1
           (entry_room1 (Num 5) in_fifo_init) (instr COPYTO (Num 0))
           (pgm_ok_one COPYTO NUM 0 ltac:(lia))
           (uint8_range_small 1 ltac:(lia))
           (entry_room1_vm_ok (Num 5) (val_ok_small NUM 5 ltac:(lia)))
           eq_refl).
  intros H. discriminate H.
Defined.

Lemma run_without_outbox_is_defined_witness :
  execute_loop 50 pgm_bump_plus 1 1 (entry_room1 (Num 5) in_fifo_init)
  <> Undefined.
Proof.
  apply (run_without_outbox_is_defined pgm_bump_plus 1 1 50
           (entry_room1 (Num 5) in_fifo_init)
           (pgm_ok_one BUMP_PLUS NUM 0 ltac:(lia))
           (uint8_range_small 1 ltac:(lia))
           eq_refl ltac:(lia)).
  - apply List.Forall_cons; [discriminate | apply List.Forall_nil].
  - exact (entry_room1_vm_ok (Num 5) (val_ok_small NUM 5 ltac:(lia))).
  - simpl. lia.
Defined.

Lemma instruction_count_bounded_witness :
  exists st',
    execute_loop 1001 pgm_jump_self 1 1 (entry_room1 zero_val in_fifo_init)
    = Returned st' /\
    0 <= pgm_num_instructions_executed st' <= MAX_INSTRUCTIONS_ALLOWED + 1.
Proof.
  eexists. split; [vm_compute; reflexivity|].
  refine (instruction_count_bounded pgm_jump_self 1 1 1001
            (entry_room1 zero_val in_fifo_init) _ _ _).
  - simpl. unfold MAX_INSTRUCTIONS_ALLOWED. lia.
  - vm_compute. reflexivity.
Defined.

Lemma unaddressed_program_terminates_witness :
  main_run 1001 <> OutOfFuel.
Proof.
  apply (unaddressed_program_terminates pgm_zero_preservation_initiative 5 9
           1001 main_entry).
  - repeat (apply List.Forall_cons; [reflexivity|]). apply List.Forall_nil.
  - simpl. lia.
  - simpl pgm_num_instructions_executed. unfold MAX_INSTRUCTIONS_ALLOWED.
    lia.
Defined.

Lemma copyfrom_success_diverges_witness :
  execute_loop 7 pgm_copyfrom 1 1 (entry_room1 (Num 1) in_fifo_init)
  = OutOfFuel.
Proof.
  apply (copyfrom_success_diverges pgm_copyfrom 1 1 7
           (entry_room1 (Num 1) in_fifo_init)
           (with_hands (Num 1) (entry_room1 (Num 1) in_fifo_init))
           (instr COPYFROM (Num 0))
           eq_refl eq_refl (or_introl eq_refl) eq_refl eq_refl).
Defined.

Lemma jump_outside_program_ends_run_witness :
  exists st',
    execute_loop 1 pgm_jump_out 1 1 (entry_room1 zero_val in_fifo_init)
    = Returned st' /\ err st' = ERR_NONE /\ pgm_pc st' > 0.
Proof.
  destruct (jump_outside_program_ends_run pgm_jump_out 1 1 0
              (entry_room1 zero_val in_fifo_init) (instr JUMP (prog_addr 0))
              ltac:(lia) eq_refl eq_refl eq_refl
              (val_ok_small PROG_ADDR 0 ltac:(lia))
              ltac:(left; simpl; lia))
    as (st' & Hrun & He & _ & Hpc & _).
  exists st'. split; [exact Hrun|]. split; [exact He | lia].
Defined.

Lemma error_ends_run_at_failing_instruction_witness :
  execute_loop 1 pgm_inbox_add 2 1
    (with_pc 1 (entry_room1 (Num 1) in_fifo_init))
  = Returned (with_err ERR_BAD_ADDEND_TYPE_IN_HANDS
                (with_pc 1 (entry_room1 (Num 1) in_fifo_init))).
Proof.
  apply (error_ends_run_at_failing_instruction pgm_inbox_add 2 1 0
           (with_pc 1 (entry_room1 (Num 1) in_fifo_init))
           (with_err ERR_BAD_ADDEND_TYPE_IN_HANDS
              (with_pc 1 (entry_room1 (Num 1) in_fifo_init)))
           eq_refl eq_refl).
  discriminate.
Defined.

Lemma bump_plus_runs_to_overflow_witness :
  exists st',
    execute_loop 3 pgm_bump_plus 1 1 (entry_room1 (Num 997) in_fifo_init)
    = Returned st' /\
    err st' = ERR_OVERFLOW /\ arr_get (mem st') 0 = Some (Num 999).
Proof.
  destruct (bump_plus_runs_to_overflow pgm_bump_plus 1 1
              (entry_room1 (Num 997) in_fifo_init) (instr BUMP_PLUS (Num 0))
              997 eq_refl eq_refl eq_refl eq_refl eq_refl ltac:(lia))
    as (st' & Hrun & He & Hcell & _).
  exists st'. split; [exact Hrun|]. split; [exact He | exact Hcell].
Defined.

(** ** The range tests as the code makes them, and who writes what *)

Section MoreCases.

Variable pgm : list HRMInstruction_t.
Variables pgm_len mem_len : Z.

(** X19.  ADD and SUB (direct and indirect) with numbers in the hands and in the
    cell, when the sum or difference fits an [int16_t]: the result is
    stored in the hands before it is tested; the step then ends with
    [ERR_UNDERFLOW] when the result is below 999, with [ERR_OVERFLOW] when
    it is above 999, and without error when it is 999.  The bank is not
    written. *)
Theorem arith_step (st : VM) (i : HRMInstruction_t) :
  uint8_range mem_len -> bank_ok (mem st) mem_len -> val_ok (param i) ->
  fetch pgm st = Some i -> arith (inst i) = true ->
  type (hands st) = NUM ->
  verify_addr (inst i) (param i) (mem st) mem_len = Some ERR_NONE ->
  exists a v,
    effective_addr (inst i) (mem st) (param i) = Some a /\
    arr_get (mem st) a = Some v /\
    (type v = NUM ->
     int16_range (arith_result (inst i) (val_n (hands st)) (val_n v)) ->
     exists st',
       loop_body pgm mem_len st = Some st' /\
       mem st' = mem st /\
       hands st' = Num (arith_result (inst i) (val_n (hands st)) (val_n v)) /\
       err st' =
         (if bool_decide
               (arith_result (inst i) (val_n (hands st)) (val_n v) < 999)
          then ERR_UNDERFLOW
          else if bool_decide
                    (arith_result (inst i) (val_n (hands st)) (val_n v) > 999)
               then ERR_OVERFLOW
               else ERR_NONE)).
Proof.
  intros HL Hb Hp Hf Hop Hh Hv.
  destruct (verify_addr_ok (inst i) (param i) (mem st) mem_len Hp HL Hb Hv)
    as (a & v & Ha & Hr & Hget & Hdir & Hind).
  exists a, v. split; [exact Ha|]. split; [exact Hget|]. intros Ht Hres.
  rewrite (loop_body_fetch pgm mem_len st i Hf).
  assert (Hnum : verify_hands_hold_number (hands st) = ERR_NONE).
  { unfold verify_hands_hold_number, verify_hands_not_empty.
    repeat case_bool_decide; simpl in *; congruence. }
  assert (Hset : forall r, set_val_n r (hands st) = Num r).
  { intros r. unfold set_val_n, Num. rewrite Hh. reflexivity. }
  destruct (inst i); try discriminate Hop; simpl in Hdir, Hind, Hres |- *;
    unfold case_ADD, case_ADD_IND, case_SUB, case_SUB_IND;
    rewrite Hnum;
    rewrite (bool_decide_eq_false_2 (ERR_NONE <> ERR_NONE)) by congruence;
    first [ destruct (Hdir eq_refl) as [-> Hvd]; rewrite Hvd; proj_simpl;
            rewrite Hget
          | destruct (Hind eq_refl) as (Hvi & Hmg & _); rewrite Hvi;
            cbn -[to_i16]; rewrite Hmg ];
    cbn -[to_i16];
    rewrite ?(bool_decide_eq_true_2 (ERR_NONE = ERR_NONE)) by reflexivity;
    cbn -[to_i16];
    rewrite (bool_decide_eq_false_2 (type v <> NUM)) by tauto;
    rewrite (to_i16_id _ Hres);
    repeat case_bool_decide; eexists;
    (split; [reflexivity|]); proj_simpl; rewrite ?Hset;
    repeat split; reflexivity.
Qed.

(** X20.  BUMP_MINUS and BUMP_MINUS_IND on an address that validates and a cell
    that holds a number above -32768: when the decremented number is below
    999 the step ends with [ERR_UNDERFLOW] and nothing else changes;
    otherwise the cell and the hands both receive the decremented number.
    So no cell within -999..999 can be bumped down. *)
Theorem bump_minus_step (st : VM) (i : HRMInstruction_t) :
  uint8_range mem_len -> bank_ok (mem st) mem_len -> val_ok (param i) ->
  fetch pgm st = Some i ->
  inst i = BUMP_MINUS \/ inst i = BUMP_MINUS_IND ->
  verify_addr (inst i) (param i) (mem st) mem_len = Some ERR_NONE ->
  exists a v,
    effective_addr (inst i) (mem st) (param i) = Some a /\
    arr_get (mem st) a = Some v /\
    (type v = NUM -> -32768 < val_n v ->
     (val_n v - 1 < 999 ->
        loop_body pgm mem_len st = Some (with_err ERR_UNDERFLOW st)) /\
     (val_n v - 1 >= 999 ->
        exists st',
          loop_body pgm mem_len st = Some st' /\
          err st' = ERR_NONE /\
          hands st' = Num (val_n v - 1) /\
          arr_get (mem st') a = Some (Num (val_n v - 1)) /\
          (forall b, b <> a -> arr_get (mem st') b = arr_get (mem st) b) /\
          length (mem st') = length (mem st))).
Proof.
  intros HL Hb Hp Hf Hop Hv.
  destruct (verify_addr_ok (inst i) (param i) (mem st) mem_len Hp HL Hb Hv)
    as (a & v & Ha & Hr & Hget & Hdir & Hind).
  pose proof (arr_get_Some_range _ _ _ Hget) as Hlen.
  pose proof (bank_ok_cell _ _ _ _ Hb Hget) as Hvr.
  exists a, v. split; [exact Ha|]. split; [exact Hget|]. intros Ht Hmin.
  assert (Hw : to_i16 (val_n v - 1) = val_n v - 1).
  { apply to_i16_id. unfold int16_range in *. lia. }
  assert (Hnew : set_val_n (to_i16 (val_n v - 1)) v = Num (val_n v - 1)).
  { unfold set_val_n, Num. rewrite Hw, Ht. reflexivity. }
  assert (Hset : forall x, arr_set (mem st) a x
                           = Some (<[Z.to_nat a := x]> (mem st))).
  { intros x. unfold arr_set. rewrite bool_decide_eq_true_2 by exact Hlen.
    reflexivity. }
  assert (Hbody :
    loop_body pgm mem_len st =
      if bool_decide (val_n v - 1 < 999)
      then Some (with_err ERR_UNDERFLOW (with_err ERR_NONE st))
      else Some (with_hands (Num (val_n v - 1))
                   (with_mem (<[Z.to_nat a := Num (val_n v - 1)]> (mem st))
                             (with_err ERR_NONE st)))).
  { rewrite (loop_body_fetch pgm mem_len st i Hf).
    destruct Hop as [Hop | Hop]; rewrite Hop in *; simpl in Hdir, Hind.
    - destruct (Hdir eq_refl) as [-> Hvd].
      unfold case_BUMP_MINUS. rewrite Hvd. cbn -[to_i16].
      rewrite (bool_decide_eq_true_2 (ERR_NONE = ERR_NONE)) by reflexivity.
      rewrite Hget.
      cbn -[to_i16]. rewrite (bool_decide_eq_false_2 (type v <> NUM)) by tauto.
      rewrite Hnew, Hw. cbn -[to_i16]. case_bool_decide; [reflexivity|].
      rewrite Hset. reflexivity.
    - destruct (Hind eq_refl) as (Hvi & Hmg & c & Hc & Hca).
      unfold case_BUMP_MINUS_IND, mem_ind_set. rewrite Hvi. cbn -[to_i16].
      rewrite (bool_decide_eq_true_2 (ERR_NONE = ERR_NONE)) by reflexivity.
      rewrite Hmg. cbn -[to_i16].
      rewrite (bool_decide_eq_false_2 (type v <> NUM)) by tauto.
      rewrite Hnew, Hw. cbn -[to_i16]. case_bool_decide; [reflexivity|].
      rewrite Hc. cbn -[to_i16]. rewrite Hca, Hset. reflexivity. }
  rewrite Hbody. clear Hbody. split.
  - intros Hlow. rewrite bool_decide_eq_true_2 by exact Hlow.
    destruct st; reflexivity.
  - intros Hhigh. rewrite bool_decide_eq_false_2 by lia.
    eexists. split; [reflexivity|]. simpl.
    split; [reflexivity|]. split; [reflexivity|]. split; [|split].
    + unfold arr_get. rewrite bool_decide_eq_true_2 by lia.
      apply list_lookup_insert_eq. lia.
    + intros b Hne. unfold arr_get.
      destruct (bool_decide (0 <= b)) eqn:Hb0; [|reflexivity].
      apply bool_decide_eq_true in Hb0.
      apply list_lookup_insert_ne. lia.
    + apply length_insert.
Qed.

(** X21.  Who writes what.  In a step, only the COPYTO and BUMP cases change the
    bank, only OUTBOX changes the output array and its count, only INBOX
    changes the input cursor and the end-of-input flag, no case changes the
    input array, and OUTBOX and the jumps leave the hands as they are. *)
Theorem step_frame_by_opcode (st st' : VM) (i : HRMInstruction_t) :
  fetch pgm st = Some i ->
  loop_body pgm mem_len st = Some st' ->
  in_fifo st' = in_fifo st /\
  (stores (inst i) = false -> mem st' = mem st) /\
  (inst i <> OUTBOX ->
     out_fifo st' = out_fifo st /\
     out_fifo_num_vals st' = out_fifo_num_vals st) /\
  (inst i <> INBOX ->
     in_fifo_val_idx st' = in_fifo_val_idx st /\
     inbox_empty st' = inbox_empty st) /\
  (addressed (inst i) = false -> inst i <> INBOX -> hands st' = hands st).
Proof.
  intros Hf Hbody.
  rewrite (loop_body_fetch pgm mem_len st i Hf) in Hbody.
  destruct (inst i); unfold_cases Hbody;
    repeat (case_bool_decide || simplify_option_eq); proj_simpl;
    repeat split; intros; first [reflexivity | congruence].
Qed.

(** X22.  The end-of-input flag of a run.  A run that starts with the flag clear
    returns with the flag clear or set to 1; when it is set, no error is
    returned and the input cursor is at or past the end of the input
    array: input exhaustion is never reported together with an error, nor
    before the input is used up. *)
Theorem input_exhaustion_flag (fuel : nat) (st st' : VM) :
  inbox_empty st = 0 ->
  execute_loop fuel pgm pgm_len mem_len st = Returned st' ->
  inbox_empty st' = 0 \/
  (inbox_empty st' = 1 /\ err st' = ERR_NONE /\
   in_fifo_val_idx st' >= NUM_INBOX_VALUES).
Proof.
  revert st. induction fuel as [|fuel IH]; intros st H0 Hrun; simpl in Hrun.
  - destruct (loop_cond pgm_len st); [discriminate|].
    injection Hrun as <-. left. exact H0.
  - destruct (loop_cond pgm_len st) eqn:Hc;
      [|injection Hrun as <-; left; exact H0].
    destruct (loop_cond_true pgm_len st Hc) as (_ & He & _ & _).
    destruct (loop_body pgm mem_len st) as [st1|] eqn:Hbody; [|discriminate].
    assert (Hstep : inbox_empty st1 = 0 \/
                    (inbox_empty st1 = 1 /\ err st1 = ERR_NONE /\
                     in_fifo_val_idx st1 >= NUM_INBOX_VALUES)).
    { destruct (loop_body_Some_fetch pgm mem_len st st1 Hbody)
        as (i & Hf & _).
      pose proof Hbody as Hb.
      rewrite (loop_body_fetch pgm mem_len st i Hf) in Hb.
      destruct (inst i); unfold_cases Hb;
        repeat (case_bool_decide || simplify_option_eq); proj_simpl;
        first [left; assumption | right; repeat split; assumption]. }
    destruct Hstep as [Hz | Hone].
    + exact (IH st1 Hz Hrun).
    + rewrite (execute_loop_stop pgm pgm_len mem_len fuel st1) in Hrun
        by (apply loop_cond_inbox_empty; tauto).
      injection Hrun as <-. right. exact Hone.
Qed.

End MoreCases.

Lemma arith_step_witness :
  exists st',
    loop_body pgm_inbox_add 1
      (with_hands (Num 998) (with_pc 1 (entry_room1 (Num 1) in_fifo_init)))
    = Some st' /\
    hands st' = Num 999 /\ err st' = ERR_NONE.
Proof.
  destruct (arith_step pgm_inbox_add 1
              (with_hands (Num 998)
                 (with_pc 1 (entry_room1 (Num 1) in_fifo_init)))
              (instr ADD (Num 0))
              (uint8_range_small 1 ltac:(lia))
              (proj1 (entry_room1_vm_ok (Num 1) (val_ok_small NUM 1 ltac:(lia))))
              (val_ok_small NUM 0 ltac:(lia))
              eq_refl eq_refl eq_refl eq_refl)
    as (a & v & Ha & Hget & Hnum).
  injection Ha as <-. injection Hget as <-.
  destruct (Hnum eq_refl ltac:(unfold int16_range; simpl; lia))
    as (st' & Hbody & _ & Hh & He).
  exists st'. split; [exact Hbody|]. split; [exact Hh | exact He].
Defined.

Lemma bump_minus_step_witness :
  loop_body pgm_bump_minus 1 (entry_room1 (Num 5) in_fifo_init)
  = Some (with_err ERR_UNDERFLOW (entry_room1 (Num 5) in_fifo_init)).
Proof.
  destruct (bump_minus_step pgm_bump_minus 1
              (entry_room1 (Num 5) in_fifo_init) (instr BUMP_MINUS (Num 0))
              (uint8_range_small 1 ltac:(lia))
              (proj1 (entry_room1_vm_ok (Num 5) (val_ok_small NUM 5 ltac:(lia))))
              (val_ok_small NUM 0 ltac:(lia))
              eq_refl (or_introl eq_refl) eq_refl)
    as (a & v & Ha & Hget & Hnum).
  injection Ha as <-. injection Hget as <-.
  destruct (Hnum eq_refl ltac:(simpl; lia)) as [Hlow _].
  apply Hlow. simpl. lia.
Defined.

Lemma step_frame_by_opcode_witness :
  mem (with_hands (Num 1) (entry_room1 (Num 1) in_fifo_init))
  = mem (entry_room1 (Num 1) in_fifo_init).
Proof.
  destruct (step_frame_by_opcode pgm_copyfrom 1
              (entry_room1 (Num 1) in_fifo_init)
              (with_hands (Num 1) (entry_room1 (Num 1) in_fifo_init))
              (instr COPYFROM (Num 0)) eq_refl eq_refl)
    as (_ & Hmem & _).
  apply Hmem. reflexivity.
Defined.

Lemma input_exhaustion_flag_witness :
  exists st',
    main_run 30 = Returned st' /\
    (inbox_empty st' = 0 \/
     (inbox_empty st' = 1 /\ err st' = ERR_NONE /\
      in_fifo_val_idx st' >= NUM_INBOX_VALUES)).
Proof.
  eexists. split; [vm_compute; reflexivity|].
  apply (input_exhaustion_flag pgm_zero_preservation_initiative 5 9 30
           main_entry _ eq_refl).
  vm_compute. reflexivity.
Defined.
